(** * Vulkan-Engine: device negotiation and resource lifecycle of [Application]

    A shallow embedding of [Application] (Application.hpp / Application.cpp):
    the suitability predicate, the queue-family scan, the three swapchain
    selectors, the swapchain descriptor, and the constructor / destructor
    sequence, followed by the properties the design document states about
    them.

    Conventions.
    - [uint32_t] values are integers of [Z]; the one addition the code performs
      on them ([minImageCount + 1]) is written with its wrap-around.
    - A [const] method that only reads the driver is a function of the
      [PhysicalDevice] record, which holds what the driver answers for that
      device and for the single surface of the application.
    - A method that mutates [this], prints, throws or calls a create / destroy
      entry point is a computation of the monad [M] over [State].
    - Undefined behaviour of the C++ library ([front] of an empty vector,
      [std::clamp] with [hi < lo]) is the outcome [Undefined]. *)

From Stdlib Require Import ZArith Lia List Permutation Sorted.
From stdpp Require Import base decidable option list gmap strings.
Import ListNotations.

#[local] Open Scope string_scope.
#[local] Open Scope list_scope.
#[local] Open Scope Z_scope.

(** ** Machine integers *)

Definition UINT32_MAX : Z := 4294967295.

Definition is_u32 (z : Z) : Prop := 0 <= z <= UINT32_MAX.

(** Result of a [uint32_t] arithmetic expression. *)
Definition u32 (z : Z) : Z := z mod 4294967296.

(** ** Outcomes: return, C++ exception, undefined behaviour *)

Inductive exception : Type :=
  | runtime_error (what : string)
  | bad_optional_access
  | SystemError (what : string)
  (* what the constructor of a std::vector throws when it cannot provide the
     storage: std::bad_alloc, or std::length_error where the library rejects
     the size before it allocates *)
  | allocation_failure.

Inductive outcome (A : Type) : Type :=
  | Ret (a : A)
  | Throw (e : exception)
  | Undefined.

Arguments Ret {A} a.
Arguments Throw {A} e.
Arguments Undefined {A}.

#[global] Instance outcome_ret : MRet outcome := fun A a => Ret a.

#[global] Instance outcome_bind : MBind outcome := fun A B k o =>
  match o with
  | Ret a => k a
  | Throw e => Throw e
  | Undefined => Undefined
  end.

(** [std::optional<T>::value()] *)
Definition value {A} (o : option A) : outcome A :=
  match o with
  | Some a => Ret a
  | None => Throw bad_optional_access
  end.

(** [std::vector<T>::front()] *)
Definition front {A} (v : list A) : outcome A :=
  match v with
  | x :: _ => Ret x
  | [] => Undefined
  end.

(** [std::clamp(v, lo, hi)]: the standard leaves the call undefined when
    [hi < lo]; otherwise the result is [lo] below the range, [hi] above it and
    [v] inside it. *)
Definition clamp (v lo hi : Z) : outcome Z :=
  if hi <? lo then Undefined
  else if v <? lo then Ret lo
  else if hi <? v then Ret hi
  else Ret v.

(** ** Vulkan data (vulkan.hpp) *)

Inductive PhysicalDeviceType : Type :=
  | eOther | eIntegratedGpu | eDiscreteGpu | eVirtualGpu | eCpu.

#[global] Instance PhysicalDeviceType_eq_dec : EqDecision PhysicalDeviceType.
Proof. solve_decision. Defined.

Inductive PresentModeKHR : Type :=
  | eImmediate | eMailbox | eFifo | eFifoRelaxed
  | eSharedDemandRefresh | eSharedContinuousRefresh.

#[global] Instance PresentModeKHR_eq_dec : EqDecision PresentModeKHR.
Proof. solve_decision. Defined.

Inductive SharingMode : Type := eExclusive | eConcurrent.

#[global] Instance SharingMode_eq_dec : EqDecision SharingMode.
Proof. solve_decision. Defined.

(** [vk::Format] and [vk::ColorSpaceKHR] have hundreds of enumerators; they are
    kept as their numeric codes. *)
Definition Format : Type := Z.
Definition ColorSpaceKHR : Type := Z.
Definition eB8G8R8A8Srgb : Format := 50.
Definition eB8G8R8A8Unorm : Format := 44.
Definition eR8G8B8A8Srgb : Format := 43.
Definition eSrgbNonlinear : ColorSpaceKHR := 0.

(** [vk::QueueFlagBits] *)
Definition eGraphics : Z := 1.
Definition eCompute : Z := 2.
Definition eTransfer : Z := 4.

Definition VK_TRUE : Z := 1.
Definition VK_FALSE : Z := 0.

Record Extent2D : Type := mkExtent2D { width : Z; height : Z }.

#[global] Instance Extent2D_eq_dec : EqDecision Extent2D.
Proof. solve_decision. Defined.

Record SurfaceFormatKHR : Type :=
  mkSurfaceFormatKHR { format : Format; colorSpace : ColorSpaceKHR }.

#[global] Instance SurfaceFormatKHR_eq_dec : EqDecision SurfaceFormatKHR.
Proof. solve_decision. Defined.

Record SurfaceCapabilitiesKHR : Type := mkSurfaceCapabilitiesKHR {
  minImageCount : Z;
  maxImageCount : Z;
  currentExtent : Extent2D;
  minImageExtent : Extent2D;
  maxImageExtent : Extent2D;
  currentTransform : Z
}.

Record QueueFamilyProperties : Type :=
  mkQueueFamilyProperties { queueFlags : Z }.

(** What the driver reports for one physical device, queried against the
    surface of the application. The record is a snapshot: the same query
    gives the same answer throughout one start-up. *)
Record PhysicalDevice : Type := mkPhysicalDevice {
  deviceType : PhysicalDeviceType;
  deviceName : string;
  (* extensionName of each entry of enumerateDeviceExtensionProperties() *)
  deviceExtensionNames : list string;
  getQueueFamilyProperties : list QueueFamilyProperties;
  (* getSurfaceSupportKHR(i, surface_), a VkBool32 *)
  getSurfaceSupportKHR : Z -> Z;
  getSurfaceCapabilitiesKHR : SurfaceCapabilitiesKHR;
  getSurfaceFormatsKHR : list SurfaceFormatKHR;
  getSurfacePresentModesKHR : list PresentModeKHR;
  (* whether createDevice succeeds on this device *)
  createDevice_succeeds : bool
}.

(** ** Members of [Application] with a fixed value *)

Definition required_device_extensions_ : list string := ["VK_KHR_swapchain"].
Definition window_width_ : Z := 800.
Definition window_height_ : Z := 600.

Record QueueFamilyIndices : Type := mkQueueFamilyIndices {
  graphics : option Z;
  transfer : option Z;
  compute : option Z;
  present : option Z
}.

Record SwapchainSupportDetails : Type := mkSwapchainSupportDetails {
  capabilities : SurfaceCapabilitiesKHR;
  formats : list SurfaceFormatKHR;
  present_modes : list PresentModeKHR
}.

(** ** Suitability evaluator *)

Definition querySwapchainSupportDetails (phys_dev : PhysicalDevice)
  : SwapchainSupportDetails :=
  {| capabilities := getSurfaceCapabilitiesKHR phys_dev;
     formats := getSurfaceFormatsKHR phys_dev;
     present_modes := getSurfacePresentModesKHR phys_dev |}.

(** The [std::set<std::string>] built from the required names, from which the
    loop erases every reported name. *)
Definition unsupported_extensions (required reported : list string)
  : gset string :=
  fold_left (fun s name => s ∖ {[ name ]}) reported (list_to_set required).

Definition vector_empty {A} (v : list A) : bool :=
  match v with [] => true | _ :: _ => false end.

Definition isDeviceSuitable (phys_dev : PhysicalDevice) : bool :=
  if negb (bool_decide (deviceType phys_dev = eDiscreteGpu)) then false
  else
    let unsupported :=
      unsupported_extensions required_device_extensions_
                             (deviceExtensionNames phys_dev) in
    if negb (bool_decide (unsupported = ∅)) then false
    else
      let swapchain_support := querySwapchainSupportDetails phys_dev in
      if vector_empty (formats swapchain_support)
         || vector_empty (present_modes swapchain_support)
      then false
      else true.

(** ** Queue family resolver *)

(** [flags & bit], converted to [bool]. *)
Definition has_flag (flags bit : Z) : bool := negb (Z.land flags bit =? 0).

Definition findQueueFamilies_body (phys_dev : PhysicalDevice) (i : Z)
    (prop : QueueFamilyProperties) (q : QueueFamilyIndices)
  : QueueFamilyIndices :=
  let q := if has_flag (queueFlags prop) eGraphics
           then {| graphics := Some i; transfer := transfer q;
                   compute := compute q; present := present q |}
           else q in
  let q := if has_flag (queueFlags prop) eTransfer
           then {| graphics := graphics q; transfer := Some i;
                   compute := compute q; present := present q |}
           else q in
  let q := if has_flag (queueFlags prop) eCompute
           then {| graphics := graphics q; transfer := transfer q;
                   compute := Some i; present := present q |}
           else q in
  if getSurfaceSupportKHR phys_dev i =? VK_TRUE
  then {| graphics := graphics q; transfer := transfer q;
          compute := compute q; present := Some i |}
  else q.

(** The [for] loop, from index [i] over the families not yet visited. The
    driver reports the number of families as a [uint32_t], so the counter
    never wraps. *)
Fixpoint findQueueFamilies_loop (phys_dev : PhysicalDevice) (i : Z)
    (rest : list QueueFamilyProperties) (q : QueueFamilyIndices)
  : QueueFamilyIndices :=
  match rest with
  | [] => q
  | prop :: rest' =>
      findQueueFamilies_loop phys_dev (i + 1) rest'
        (findQueueFamilies_body phys_dev i prop q)
  end.

Definition findQueueFamilies (phys_dev : PhysicalDevice) : QueueFamilyIndices :=
  findQueueFamilies_loop phys_dev 0 (getQueueFamilyProperties phys_dev)
    {| graphics := None; transfer := None; compute := None; present := None |}.

(** ** Negotiation layer *)

Definition is_preferred_format (i : SurfaceFormatKHR) : bool :=
  bool_decide (format i = eB8G8R8A8Srgb)
  && bool_decide (colorSpace i = eSrgbNonlinear).

Definition chooseSwapSurfaceFormat (formats : list SurfaceFormatKHR)
  : outcome SurfaceFormatKHR :=
  match find is_preferred_format formats with
  | Some result => Ret result
  | None => front formats
  end.

Fixpoint chooseSwapPresentMode (present_modes : list PresentModeKHR)
  : PresentModeKHR :=
  match present_modes with
  | [] => eFifo
  | available_present_mode :: rest =>
      if bool_decide (available_present_mode = eMailbox)
      then available_present_mode
      else chooseSwapPresentMode rest
  end.

Definition chooseSwapExtent (capabilities : SurfaceCapabilitiesKHR)
  : outcome Extent2D :=
  if negb (width (currentExtent capabilities) =? UINT32_MAX)
     && negb (height (currentExtent capabilities) =? UINT32_MAX)
  then Ret (currentExtent capabilities)
  else
    w ← clamp window_width_
              (width (minImageExtent capabilities))
              (width (maxImageExtent capabilities));
    h ← clamp window_height_
              (height (minImageExtent capabilities))
              (height (maxImageExtent capabilities));
    Ret {| width := w; height := h |}.

(** ** Swapchain configuration builder

    The pure part of [initSwapchain]: everything up to the creation call. *)

Record SwapchainCreateInfoKHR : Type := mkSwapchainCreateInfoKHR {
  ci_minImageCount : Z;
  ci_imageFormat : Format;
  ci_imageColorSpace : ColorSpaceKHR;
  ci_imageExtent : Extent2D;
  ci_imageArrayLayers : Z;
  ci_imageSharingMode : SharingMode;
  (* pQueueFamilyIndices, with queueFamilyIndexCount its length *)
  ci_queueFamilyIndices : list Z;
  ci_preTransform : Z;
  ci_presentMode : PresentModeKHR;
  ci_clipped : Z
}.

(** [image_count] after the optional clamp. *)
Definition initSwapchain_image_count (capabilities : SurfaceCapabilitiesKHR)
  : outcome Z :=
  let image_count := u32 (minImageCount capabilities + 1) in
  if 0 <? maxImageCount capabilities
  then clamp image_count (minImageCount capabilities)
             (maxImageCount capabilities)
  else Ret image_count.

(** [image_sharing_mode] and the local vector [queue_family_indices]. *)
Definition initSwapchain_sharing (q : QueueFamilyIndices)
  : outcome (SharingMode * list Z) :=
  g ← value (graphics q);
  p ← value (present q);
  if negb (g =? p) then Ret (eConcurrent, [g; p])
  else Ret (eExclusive, []).

Definition initSwapchain_create_info
    (swapchain_support : SwapchainSupportDetails) (q : QueueFamilyIndices)
  : outcome SwapchainCreateInfoKHR :=
  surface_format ← chooseSwapSurfaceFormat (formats swapchain_support);
  let present_mode := chooseSwapPresentMode (present_modes swapchain_support) in
  extent ← chooseSwapExtent (capabilities swapchain_support);
  image_count ← initSwapchain_image_count (capabilities swapchain_support);
  let image_layers := 1 in
  sharing ← initSwapchain_sharing q;
  Ret {| ci_minImageCount := image_count;
         ci_imageFormat := format surface_format;
         ci_imageColorSpace := colorSpace surface_format;
         ci_imageExtent := extent;
         ci_imageArrayLayers := image_layers;
         ci_imageSharingMode := fst sharing;
         ci_queueFamilyIndices := snd sharing;
         ci_preTransform :=
           currentTransform (capabilities swapchain_support);
         ci_presentMode := present_mode;
         ci_clipped := VK_TRUE |}.

(** ** Objects, the platform, and the state of the program *)

(** The objects the application creates. Every creation call returns a fresh
    handle; an image view is named by the number of views created before it. *)
Inductive object : Type :=
  | Window | Instance | Surface | Device | Swapchain
  | ImageView (k : nat)
  | ShaderModule (file : string).

#[global] Instance object_eq_dec : EqDecision object.
Proof. solve_decision. Defined.

(** What a creation call was given, where the code computes it. *)
Inductive create_info : Type :=
  | NoInfo
  | DeviceQueues (queue_families : list Z)
  | SwapchainInfo (ci : SwapchainCreateInfoKHR).

Inductive event : Type :=
  | Create (o : object) (info : create_info)
  | Destroy (o : object).

Definition Image : Type := nat.

(** The answers of SDL, of the file system and of the driver to the calls of
    one start-up. *)
Record Platform : Type := mkPlatform {
  SDL_Init_result : Z;
  SDL_CreateWindow_succeeds : bool;
  createInstance_succeeds : bool;
  SDL_Vulkan_CreateSurface_succeeds : bool;
  enumeratePhysicalDevices : list PhysicalDevice;
  createSwapchainKHR_succeeds : bool;
  getSwapchainImagesKHR : list Image;
  (* whether the k-th createImageView call succeeds *)
  createImageView_succeeds : nat -> bool;
  file_opens : string -> bool;
  (* whether the vector that readFile sizes from the unchecked tellg() of the
     opened file can be constructed; it cannot when tellg() reports -1 (a
     directory, say) or when the size cannot be allocated *)
  file_data_allocates : string -> bool;
  createShaderModule_succeeds : string -> bool
}.

(** A queue handle: the family it was taken from and its index there. *)
Record Queues : Type := mkQueues {
  queue_graphics : option (Z * Z);
  queue_transfer : option (Z * Z);
  queue_compute : option (Z * Z);
  queue_present : option (Z * Z)
}.

(** The data members of [Application] that the start-up writes, then the
    creation / destruction calls made so far (oldest first) and the lines
    written to [std::cerr]. A null handle is [None]. Output to [std::cout] and
    the instance-extension list are left out. *)
Record State : Type := mkState {
  window_ : option object;
  instance_ : option object;
  physical_device_ : option PhysicalDevice;
  device_ : option object;
  surface_ : option object;
  swapchain_ : option object;
  swapchain_images_ : list Image;
  swapchain_image_views_ : list object;
  swapchain_format_ : Format;
  swapchain_extent_ : Extent2D;
  queue_family_indices_ : QueueFamilyIndices;
  queues_ : Queues;
  trace : list event;
  cerr : list string
}.

Definition initial_state : State :=
  {| window_ := None; instance_ := None; physical_device_ := None;
     device_ := None; surface_ := None; swapchain_ := None;
     swapchain_images_ := []; swapchain_image_views_ := [];
     swapchain_format_ := 0; swapchain_extent_ := {| width := 0; height := 0 |};
     queue_family_indices_ :=
       {| graphics := None; transfer := None; compute := None;
          present := None |};
     queues_ := {| queue_graphics := None; queue_transfer := None;
                   queue_compute := None; queue_present := None |};
     trace := []; cerr := [] |}.

Definition set_window_ (v : option object) (s : State) : State :=
  {| window_ := v; instance_ := instance_ s;
     physical_device_ := physical_device_ s; device_ := device_ s;
     surface_ := surface_ s; swapchain_ := swapchain_ s;
     swapchain_images_ := swapchain_images_ s;
     swapchain_image_views_ := swapchain_image_views_ s;
     swapchain_format_ := swapchain_format_ s;
     swapchain_extent_ := swapchain_extent_ s;
     queue_family_indices_ := queue_family_indices_ s; queues_ := queues_ s;
     trace := trace s; cerr := cerr s |}.

Definition set_instance_ (v : option object) (s : State) : State :=
  {| window_ := window_ s; instance_ := v;
     physical_device_ := physical_device_ s; device_ := device_ s;
     surface_ := surface_ s; swapchain_ := swapchain_ s;
     swapchain_images_ := swapchain_images_ s;
     swapchain_image_views_ := swapchain_image_views_ s;
     swapchain_format_ := swapchain_format_ s;
     swapchain_extent_ := swapchain_extent_ s;
     queue_family_indices_ := queue_family_indices_ s; queues_ := queues_ s;
     trace := trace s; cerr := cerr s |}.

Definition set_physical_device_ (v : option PhysicalDevice) (s : State) : State :=
  {| window_ := window_ s; instance_ := instance_ s; physical_device_ := v;
     device_ := device_ s; surface_ := surface_ s; swapchain_ := swapchain_ s;
     swapchain_images_ := swapchain_images_ s;
     swapchain_image_views_ := swapchain_image_views_ s;
     swapchain_format_ := swapchain_format_ s;
     swapchain_extent_ := swapchain_extent_ s;
     queue_family_indices_ := queue_family_indices_ s; queues_ := queues_ s;
     trace := trace s; cerr := cerr s |}.

Definition set_device_ (v : option object) (s : State) : State :=
  {| window_ := window_ s; instance_ := instance_ s;
     physical_device_ := physical_device_ s; device_ := v;
     surface_ := surface_ s; swapchain_ := swapchain_ s;
     swapchain_images_ := swapchain_images_ s;
     swapchain_image_views_ := swapchain_image_views_ s;
     swapchain_format_ := swapchain_format_ s;
     swapchain_extent_ := swapchain_extent_ s;
     queue_family_indices_ := queue_family_indices_ s; queues_ := queues_ s;
     trace := trace s; cerr := cerr s |}.

Definition set_surface_ (v : option object) (s : State) : State :=
  {| window_ := window_ s; instance_ := instance_ s;
     physical_device_ := physical_device_ s; device_ := device_ s;
     surface_ := v; swapchain_ := swapchain_ s;
     swapchain_images_ := swapchain_images_ s;
     swapchain_image_views_ := swapchain_image_views_ s;
     swapchain_format_ := swapchain_format_ s;
     swapchain_extent_ := swapchain_extent_ s;
     queue_family_indices_ := queue_family_indices_ s; queues_ := queues_ s;
     trace := trace s; cerr := cerr s |}.

Definition set_swapchain_ (v : option object) (s : State) : State :=
  {| window_ := window_ s; instance_ := instance_ s;
     physical_device_ := physical_device_ s; device_ := device_ s;
     surface_ := surface_ s; swapchain_ := v;
     swapchain_images_ := swapchain_images_ s;
     swapchain_image_views_ := swapchain_image_views_ s;
     swapchain_format_ := swapchain_format_ s;
     swapchain_extent_ := swapchain_extent_ s;
     queue_family_indices_ := queue_family_indices_ s; queues_ := queues_ s;
     trace := trace s; cerr := cerr s |}.

Definition set_swapchain_images_ (v : list Image) (s : State) : State :=
  {| window_ := window_ s; instance_ := instance_ s;
     physical_device_ := physical_device_ s; device_ := device_ s;
     surface_ := surface_ s; swapchain_ := swapchain_ s;
     swapchain_images_ := v;
     swapchain_image_views_ := swapchain_image_views_ s;
     swapchain_format_ := swapchain_format_ s;
     swapchain_extent_ := swapchain_extent_ s;
     queue_family_indices_ := queue_family_indices_ s; queues_ := queues_ s;
     trace := trace s; cerr := cerr s |}.

Definition set_swapchain_image_views_ (v : list object) (s : State) : State :=
  {| window_ := window_ s; instance_ := instance_ s;
     physical_device_ := physical_device_ s; device_ := device_ s;
     surface_ := surface_ s; swapchain_ := swapchain_ s;
     swapchain_images_ := swapchain_images_ s; swapchain_image_views_ := v;
     swapchain_format_ := swapchain_format_ s;
     swapchain_extent_ := swapchain_extent_ s;
     queue_family_indices_ := queue_family_indices_ s; queues_ := queues_ s;
     trace := trace s; cerr := cerr s |}.

Definition set_swapchain_format_ (v : Format) (s : State) : State :=
  {| window_ := window_ s; instance_ := instance_ s;
     physical_device_ := physical_device_ s; device_ := device_ s;
     surface_ := surface_ s; swapchain_ := swapchain_ s;
     swapchain_images_ := swapchain_images_ s;
     swapchain_image_views_ := swapchain_image_views_ s;
     swapchain_format_ := v; swapchain_extent_ := swapchain_extent_ s;
     queue_family_indices_ := queue_family_indices_ s; queues_ := queues_ s;
     trace := trace s; cerr := cerr s |}.

Definition set_swapchain_extent_ (v : Extent2D) (s : State) : State :=
  {| window_ := window_ s; instance_ := instance_ s;
     physical_device_ := physical_device_ s; device_ := device_ s;
     surface_ := surface_ s; swapchain_ := swapchain_ s;
     swapchain_images_ := swapchain_images_ s;
     swapchain_image_views_ := swapchain_image_views_ s;
     swapchain_format_ := swapchain_format_ s; swapchain_extent_ := v;
     queue_family_indices_ := queue_family_indices_ s; queues_ := queues_ s;
     trace := trace s; cerr := cerr s |}.

Definition set_queue_family_indices_ (v : QueueFamilyIndices) (s : State) : State :=
  {| window_ := window_ s; instance_ := instance_ s;
     physical_device_ := physical_device_ s; device_ := device_ s;
     surface_ := surface_ s; swapchain_ := swapchain_ s;
     swapchain_images_ := swapchain_images_ s;
     swapchain_image_views_ := swapchain_image_views_ s;
     swapchain_format_ := swapchain_format_ s;
     swapchain_extent_ := swapchain_extent_ s; queue_family_indices_ := v;
     queues_ := queues_ s; trace := trace s; cerr := cerr s |}.

Definition set_queues_ (v : Queues) (s : State) : State :=
  {| window_ := window_ s; instance_ := instance_ s;
     physical_device_ := physical_device_ s; device_ := device_ s;
     surface_ := surface_ s; swapchain_ := swapchain_ s;
     swapchain_images_ := swapchain_images_ s;
     swapchain_image_views_ := swapchain_image_views_ s;
     swapchain_format_ := swapchain_format_ s;
     swapchain_extent_ := swapchain_extent_ s;
     queue_family_indices_ := queue_family_indices_ s; queues_ := v;
     trace := trace s; cerr := cerr s |}.

Definition set_trace (v : list event) (s : State) : State :=
  {| window_ := window_ s; instance_ := instance_ s;
     physical_device_ := physical_device_ s; device_ := device_ s;
     surface_ := surface_ s; swapchain_ := swapchain_ s;
     swapchain_images_ := swapchain_images_ s;
     swapchain_image_views_ := swapchain_image_views_ s;
     swapchain_format_ := swapchain_format_ s;
     swapchain_extent_ := swapchain_extent_ s;
     queue_family_indices_ := queue_family_indices_ s; queues_ := queues_ s;
     trace := v; cerr := cerr s |}.

Definition set_cerr (v : list string) (s : State) : State :=
  {| window_ := window_ s; instance_ := instance_ s;
     physical_device_ := physical_device_ s; device_ := device_ s;
     surface_ := surface_ s; swapchain_ := swapchain_ s;
     swapchain_images_ := swapchain_images_ s;
     swapchain_image_views_ := swapchain_image_views_ s;
     swapchain_format_ := swapchain_format_ s;
     swapchain_extent_ := swapchain_extent_ s;
     queue_family_indices_ := queue_family_indices_ s; queues_ := queues_ s;
     trace := trace s; cerr := v |}.

(** ** The monad of the member functions *)

Definition M (A : Type) : Type := State -> outcome A * State.

#[global] Instance M_ret : MRet M := fun A a s => (Ret a, s).

#[global] Instance M_bind : MBind M := fun A B k m s =>
  match m s with
  | (Ret a, s') => k a s'
  | (Throw e, s') => (Throw e, s')
  | (Undefined, s') => (Undefined, s')
  end.

Definition lift {A} (o : outcome A) : M A := fun s => (o, s).
Definition throw {A} (e : exception) : M A := lift (Throw e).
Definition gets {A} (f : State -> A) : M A := fun s => (Ret (f s), s).
Definition modify (f : State -> State) : M unit := fun s => (Ret tt, f s).
Definition emit (e : event) : M unit :=
  modify (fun s => set_trace (trace s ++ [e]) s).
Definition print_cerr (line : string) : M unit :=
  modify (fun s => set_cerr (cerr s ++ [line]) s).

(** A call through a handle member: using a null handle is undefined. *)
Definition deref {A} (f : State -> option A) : M A :=
  fun s => match f s with
           | Some a => (Ret a, s)
           | None => (Undefined, s)
           end.

(** ** Resource lifecycle manager: the start-up steps *)

Definition initSDL (pf : Platform) : M unit :=
  if SDL_Init_result pf <? 0 then throw (runtime_error "SDL_GetError()")
  else if SDL_CreateWindow_succeeds pf then
    emit (Create Window NoInfo);;
    modify (set_window_ (Some Window))
  else
    modify (set_window_ None);;
    throw (runtime_error "SDL_GetError()").

Definition initInstance (pf : Platform) : M unit :=
  (if createInstance_succeeds pf then
     emit (Create Instance NoInfo);;
     modify (set_instance_ (Some Instance))
   else throw (SystemError "vk::createInstance"));;
  if SDL_Vulkan_CreateSurface_succeeds pf then
    emit (Create Surface NoInfo);;
    modify (set_surface_ (Some Surface))
  else throw (runtime_error "Failed to create a Vulkan surface").

Definition initPhysicalDevice (pf : Platform) : M unit :=
  let phys_devs := enumeratePhysicalDevices pf in
  if (length phys_devs =? 0)%nat
  then throw (runtime_error "Unable to find Vulkan compatible device")
  else
    match find isDeviceSuitable phys_devs with
    | None =>
        throw (runtime_error "Unable to find Vulkan compatible discrete GPU")
    | Some phys_dev => modify (set_physical_device_ (Some phys_dev))
    end.

Definition initQueueFamilies : M unit :=
  phys_dev ← deref physical_device_;
  modify (set_queue_family_indices_ (findQueueFamilies phys_dev));;
  q ← gets queue_family_indices_;
  (* Check if required queues exist *)
  (if negb (bool_decide (is_Some (graphics q))) then
     throw (runtime_error "Could not find a graphics queue for selected device")
   else mret tt);;
  (if negb (bool_decide (is_Some (present q))) then
     throw (runtime_error "Could not find a present queue for selected device")
   else mret tt);;
  (* Check if optional queues exist *)
  (if negb (bool_decide (is_Some (transfer q))) then
     print_cerr "Could not find a transfer queue for selected device"
   else mret tt);;
  (if negb (bool_decide (is_Some (compute q))) then
     print_cerr "Could not find a compute queue for selected device"
   else mret tt).

(** [std::set<uint32_t>]: ascending, without duplicates. *)
Fixpoint std_set_insert (x : Z) (s : list Z) : list Z :=
  match s with
  | [] => [x]
  | y :: s' =>
      if x <? y then x :: s
      else if x =? y then s
      else y :: std_set_insert x s'
  end.

Definition std_set (init : list Z) : list Z :=
  fold_left (fun s x => std_set_insert x s) init [].

Definition initDevice : M unit :=
  q ← gets queue_family_indices_;
  (* Gather all queue family indices into an iterable set *)
  g ← lift (value (graphics q));
  t ← lift (value (transfer q));
  c ← lift (value (compute q));
  p ← lift (value (present q));
  let queue_family_set := std_set [g; t; c; p] in
  phys_dev ← deref physical_device_;
  (if createDevice_succeeds phys_dev then
     emit (Create Device (DeviceQueues queue_family_set));;
     modify (set_device_ (Some Device))
   else throw (SystemError "vk::PhysicalDevice::createDevice"));;
  (* Get the first queue for each type of queue *)
  g ← lift (value (graphics q));
  modify (fun s => set_queues_
    {| queue_graphics := Some (g, 0); queue_transfer := queue_transfer (queues_ s);
       queue_compute := queue_compute (queues_ s);
       queue_present := queue_present (queues_ s) |} s);;
  t ← lift (value (transfer q));
  modify (fun s => set_queues_
    {| queue_graphics := queue_graphics (queues_ s); queue_transfer := Some (t, 0);
       queue_compute := queue_compute (queues_ s);
       queue_present := queue_present (queues_ s) |} s);;
  c ← lift (value (compute q));
  modify (fun s => set_queues_
    {| queue_graphics := queue_graphics (queues_ s);
       queue_transfer := queue_transfer (queues_ s);
       queue_compute := Some (c, 0);
       queue_present := queue_present (queues_ s) |} s);;
  p ← lift (value (present q));
  modify (fun s => set_queues_
    {| queue_graphics := queue_graphics (queues_ s);
       queue_transfer := queue_transfer (queues_ s);
       queue_compute := queue_compute (queues_ s);
       queue_present := Some (p, 0) |} s).

Definition initSwapchain (pf : Platform) : M unit :=
  phys_dev ← deref physical_device_;
  let swapchain_support := querySwapchainSupportDetails phys_dev in
  q ← gets queue_family_indices_;
  create_info ← lift (initSwapchain_create_info swapchain_support q);
  _ ← deref device_;
  (if createSwapchainKHR_succeeds pf then
     emit (Create Swapchain (SwapchainInfo create_info));;
     modify (set_swapchain_ (Some Swapchain))
   else throw (SystemError "vk::Device::createSwapchainKHR"));;
  modify (set_swapchain_images_ (getSwapchainImagesKHR pf));;
  modify (set_swapchain_format_ (ci_imageFormat create_info));;
  modify (set_swapchain_extent_ (ci_imageExtent create_info)).

(** The loop of [initSwapchainImageViews] over the images not yet visited. *)
Fixpoint initSwapchainImageViews_loop (pf : Platform) (images : list Image)
  : M unit :=
  match images with
  | [] => mret tt
  | swapchain_image :: rest =>
      _ ← deref device_;
      k ← gets (fun s => length (swapchain_image_views_ s));
      (if createImageView_succeeds pf k then
         emit (Create (ImageView k) NoInfo);;
         modify (fun s => set_swapchain_image_views_
                            (swapchain_image_views_ s ++ [ImageView k]) s)
       else throw (SystemError "vk::Device::createImageView"));;
      initSwapchainImageViews_loop pf rest
  end.

Definition initSwapchainImageViews (pf : Platform) : M unit :=
  images ← gets swapchain_images_;
  initSwapchainImageViews_loop pf images.

(** [readFile] has three endings: the file does not open and it throws
    "Failed to open file"; the file opens but the vector sized from the
    unchecked [tellg()] cannot be constructed and the constructor throws; or
    it returns the bytes. The bytes themselves are used for nothing but the
    code pointer of the shader module, so they are left out. *)
Definition readFile (pf : Platform) (file_name : string) : M unit :=
  if file_opens pf file_name then
    (* std::vector<char> file_data(file_size) *)
    if file_data_allocates pf file_name then mret tt
    else throw allocation_failure
  else throw (runtime_error "Failed to open file").

Definition createShaderModule (pf : Platform) (file_name : string) : M object :=
  _ ← deref device_;
  if createShaderModule_succeeds pf file_name then
    emit (Create (ShaderModule file_name) NoInfo);;
    mret (ShaderModule file_name)
  else throw (SystemError "vk::Device::createShaderModule").

(** The pipeline description structures that [initGraphicsPipeline] fills in
    are local values; only the files it reads and the shader modules it
    creates and destroys are visible outside. *)
Definition initGraphicsPipeline (pf : Platform) : M unit :=
  readFile pf "vert.spv";;
  readFile pf "frag.spv";;
  vert_shader_module ← createShaderModule pf "vert.spv";
  frag_shader_module ← createShaderModule pf "frag.spv";
  emit (Destroy frag_shader_module);;
  emit (Destroy vert_shader_module).

(** [Application::Application()] *)
Definition Application_ctor (pf : Platform) : M unit :=
  initSDL pf;;
  initInstance pf;;
  initPhysicalDevice pf;;
  initQueueFamilies;;
  initDevice;;
  initSwapchain pf;;
  initSwapchainImageViews pf;;
  initGraphicsPipeline pf.

(** A destroy call: a null handle is accepted and nothing is destroyed. *)
Definition destroy (h : option object) : M unit :=
  match h with
  | Some o => emit (Destroy o)
  | None => mret tt
  end.

Fixpoint destroyImageViews (views : list object) : M unit :=
  match views with
  | [] => mret tt
  | image_view :: rest => emit (Destroy image_view);; destroyImageViews rest
  end.

(** [Application::~Application()] *)
Definition Application_dtor : M unit :=
  (* Destroy all image views *)
  views ← gets swapchain_image_views_;
  destroyImageViews views;;
  (* Destroy the swapchain *)
  (h ← gets swapchain_; destroy h);;
  (* Destroy the surface *)
  (h ← gets surface_; destroy h);;
  (* Destroy the logical device *)
  (h ← gets device_; destroy h);;
  (* Destroy the instance *)
  (h ← gets instance_; destroy h);;
  (* Destroy the window *)
  (h ← gets window_; destroy h).

(** The life of the [Application] object. C++ runs the destructor of an object
    only if its constructor returned; an exception that leaves the constructor
    ends the life of the object without it. Between the two, [run] creates and
    destroys nothing. *)
Definition Application_lifetime (pf : Platform) : outcome unit * State :=
  match Application_ctor pf initial_state with
  | (Ret _, s) => Application_dtor s
  | (Throw e, s) => (Throw e, s)
  | (Undefined, s) => (Undefined, s)
  end.

(** ** The earlier revision of the class (Source/Application.cpp)

    It has the same suitability predicate, queue scan, selectors and
    swapchain descriptor. Its start-up is [init], called from [run], and its
    teardown is [cleanup], called at the end of [run]; it creates no image
    views and never destroys the window. *)
Module Legacy.

Definition initInstance (pf : Platform) : M unit :=
  (if createInstance_succeeds pf then
     emit (Create Instance NoInfo);;
     modify (set_instance_ (Some Instance))
   else throw (runtime_error "Failed to initialise Vulkan instance"));;
  if SDL_Vulkan_CreateSurface_succeeds pf then
    emit (Create Surface NoInfo);;
    modify (set_surface_ (Some Surface))
  else throw (runtime_error "Failed to create a Vulkan surface").

(** The loop assigns the first suitable device and breaks. *)
Fixpoint initPhysicalDevice_loop (physical_devices : list PhysicalDevice)
  : M unit :=
  match physical_devices with
  | [] => mret tt
  | physical_device :: rest =>
      if isDeviceSuitable physical_device
      then modify (set_physical_device_ (Some physical_device))
      else initPhysicalDevice_loop rest
  end.

Definition initPhysicalDevice (pf : Platform) : M unit :=
  let physical_devices := enumeratePhysicalDevices pf in
  if (length physical_devices =? 0)%nat
  then throw (runtime_error "Unable to find Vulkan compatible device")
  else
    initPhysicalDevice_loop physical_devices;;
    selected ← gets physical_device_;
    if negb (bool_decide (is_Some selected))
    then throw (runtime_error "Unable to find Vulkan compatible discrete GPU")
    else mret tt.

(** The set is filled by four [insert] calls, in the same order; a failed
    [createDevice] ends the step with an exception (the null check of the
    source, or the exception of vulkan.hpp before it). *)
Definition initDevice : M unit :=
  q ← gets queue_family_indices_;
  (* Gather all queue family indices into an iterable set *)
  g ← lift (value (graphics q));
  t ← lift (value (transfer q));
  c ← lift (value (compute q));
  p ← lift (value (present q));
  let queue_family_set := std_set [g; t; c; p] in
  phys_dev ← deref physical_device_;
  (if createDevice_succeeds phys_dev then
     emit (Create Device (DeviceQueues queue_family_set));;
     modify (set_device_ (Some Device))
   else
     modify (set_device_ None);;
     throw (runtime_error "Unable to create logical device"));;
  modify (set_queues_
    {| queue_graphics := Some (g, 0); queue_transfer := Some (t, 0);
       queue_compute := Some (c, 0); queue_present := Some (p, 0) |}).

Definition initSwapchain (pf : Platform) : M unit :=
  phys_dev ← deref physical_device_;
  let swapchain_support := querySwapchainSupportDetails phys_dev in
  q ← gets queue_family_indices_;
  create_info ← lift (initSwapchain_create_info swapchain_support q);
  _ ← deref device_;
  (if createSwapchainKHR_succeeds pf then
     emit (Create Swapchain (SwapchainInfo create_info));;
     modify (set_swapchain_ (Some Swapchain))
   else throw (SystemError "vk::Device::createSwapchainKHR"));;
  modify (set_swapchain_images_ (getSwapchainImagesKHR pf)).

Definition init (pf : Platform) : M unit :=
  initSDL pf;;
  initInstance pf;;
  initPhysicalDevice pf;;
  initQueueFamilies;;
  initDevice;;
  initSwapchain pf.

Definition main : M unit := mret tt.

Definition cleanup : M unit :=
  (h ← gets swapchain_; destroy h);;
  (h ← gets surface_; destroy h);;
  (h ← gets device_; destroy h);;
  (h ← gets instance_; destroy h).

Definition run (pf : Platform) : M unit :=
  init pf;;
  main;;
  cleanup.

End Legacy.

(** * Vocabulary of the properties, and sample inputs *)

(** The pair that [chooseSwapSurfaceFormat] looks for. *)
Definition preferred_format : SurfaceFormatKHR :=
  {| format := eB8G8R8A8Srgb; colorSpace := eSrgbNonlinear |}.

(** A snapshot with the undefined current extent and no upper image count. *)
Definition caps_undefined_extent : SurfaceCapabilitiesKHR :=
  {| minImageCount := 2; maxImageCount := 0;
     currentExtent := {| width := UINT32_MAX; height := UINT32_MAX |};
     minImageExtent := {| width := 200; height := 200 |};
     maxImageExtent := {| width := 1920; height := 1080 |};
     currentTransform := 1 |}.

(** A snapshot with a fixed current extent and image counts 2 .. 2. *)
Definition caps_fixed_extent : SurfaceCapabilitiesKHR :=
  {| minImageCount := 2; maxImageCount := 2;
     currentExtent := {| width := 1024; height := 768 |};
     minImageExtent := {| width := 200; height := 200 |};
     maxImageExtent := {| width := 1920; height := 1080 |};
     currentTransform := 1 |}.

(** A snapshot whose current extent has the sentinel in the width only. *)
Definition caps_width_sentinel_only : SurfaceCapabilitiesKHR :=
  {| minImageCount := 2; maxImageCount := 0;
     currentExtent := {| width := UINT32_MAX; height := 768 |};
     minImageExtent := {| width := 200; height := 200 |};
     maxImageExtent := {| width := 1920; height := 1080 |};
     currentTransform := 1 |}.

(** The sharing mode and index list for graphics index [g] and present
    index [p]. *)
Definition sharing_policy (g p : Z) : SharingMode * list Z :=
  if decide (g = p) then (eExclusive, []) else (eConcurrent, [g; p]).

(** A discrete GPU with surface formats and present modes that reports no
    swapchain extension, and one that reports it. *)
Definition gpu_without_swapchain_extension : PhysicalDevice :=
  {| deviceType := eDiscreteGpu; deviceName := "discrete";
     deviceExtensionNames := ["VK_KHR_maintenance1"];
     getQueueFamilyProperties := [{| queueFlags := 7 |}];
     getSurfaceSupportKHR := fun _ => VK_TRUE;
     getSurfaceCapabilitiesKHR := caps_undefined_extent;
     getSurfaceFormatsKHR := [preferred_format];
     getSurfacePresentModesKHR := [eFifo];
     createDevice_succeeds := true |}.

Definition gpu_with_swapchain_extension : PhysicalDevice :=
  {| deviceType := eDiscreteGpu; deviceName := "discrete";
     deviceExtensionNames := ["VK_KHR_maintenance1"; "VK_KHR_swapchain"];
     getQueueFamilyProperties := [{| queueFlags := 7 |}];
     getSurfaceSupportKHR := fun _ => VK_TRUE;
     getSurfaceCapabilitiesKHR := caps_undefined_extent;
     getSurfaceFormatsKHR := [preferred_format];
     getSurfacePresentModesKHR := [eFifo];
     createDevice_succeeds := true |}.

Inductive QueueRole : Type :=
  | RoleGraphics | RoleTransfer | RoleCompute | RolePresent.

(** The index stored for a role. *)
Definition resolved (r : QueueRole) (q : QueueFamilyIndices) : option Z :=
  match r with
  | RoleGraphics => graphics q
  | RoleTransfer => transfer q
  | RoleCompute => compute q
  | RolePresent => present q
  end.

(** Family [i], with properties [prop], offers the role: by its capability
    bit for graphics, transfer and compute, by the surface-support query for
    present. *)
Definition family_offers (phys_dev : PhysicalDevice) (r : QueueRole) (i : Z)
    (prop : QueueFamilyProperties) : bool :=
  match r with
  | RoleGraphics => has_flag (queueFlags prop) eGraphics
  | RoleTransfer => has_flag (queueFlags prop) eTransfer
  | RoleCompute => has_flag (queueFlags prop) eCompute
  | RolePresent => getSurfaceSupportKHR phys_dev i =? VK_TRUE
  end.

(** [i] is the highest index of [props] whose family offers the role. *)
Definition highest_offering (phys_dev : PhysicalDevice) (r : QueueRole)
    (props : list QueueFamilyProperties) (i : Z) : Prop :=
  0 <= i
  /\ (exists prop, props !! Z.to_nat i = Some prop
                   /\ family_offers phys_dev r i prop = true)
  /\ forall j prop, i < j -> props !! Z.to_nat j = Some prop ->
                    family_offers phys_dev r j prop = false.

(** No family of [props] offers the role. *)
Definition none_offering (phys_dev : PhysicalDevice) (r : QueueRole)
    (props : list QueueFamilyProperties) : Prop :=
  forall j prop, 0 <= j -> props !! Z.to_nat j = Some prop ->
                 family_offers phys_dev r j prop = false.

Definition resolution_correct (phys_dev : PhysicalDevice)
    (props : list QueueFamilyProperties) (q : QueueFamilyIndices) : Prop :=
  forall r,
    match resolved r q with
    | Some i => highest_offering phys_dev r props i
    | None => none_offering phys_dev r props
    end.

(** Three families: graphics + transfer, compute + transfer with surface
    support, transfer only. Transfer resolves to the last one. *)
Definition gpu_three_families : PhysicalDevice :=
  {| deviceType := eDiscreteGpu; deviceName := "discrete";
     deviceExtensionNames := ["VK_KHR_swapchain"];
     getQueueFamilyProperties :=
       [{| queueFlags := 5 |}; {| queueFlags := 6 |}; {| queueFlags := 4 |}];
     getSurfaceSupportKHR := fun i => if i =? 1 then VK_TRUE else VK_FALSE;
     getSurfaceCapabilitiesKHR := caps_undefined_extent;
     getSurfaceFormatsKHR := [preferred_format];
     getSurfacePresentModesKHR := [eFifo];
     createDevice_succeeds := true |}.

(** The views with ordinals [from], ..., [from + count - 1], and the calls
    that create them. *)
Definition created_views (from count : nat) : list object :=
  map ImageView (seq from count).

Definition view_creations (from count : nat) : list event :=
  map (fun k => Create (ImageView k) NoInfo) (seq from count).

(** The calls of a successful [initGraphicsPipeline]. *)
Definition pipeline_events : list event :=
  [Create (ShaderModule "vert.spv") NoInfo;
   Create (ShaderModule "frag.spv") NoInfo;
   Destroy (ShaderModule "frag.spv");
   Destroy (ShaderModule "vert.spv")].

(** The first five steps of the constructor, up to the logical device. *)
Definition startup_before_swapchain (pf : Platform) : M unit :=
  initSDL pf;;
  initInstance pf;;
  initPhysicalDevice pf;;
  initQueueFamilies;;
  initDevice.

(** A discrete GPU whose only family reports graphics and compute and supports
    the surface, but does not report the transfer bit (a driver may leave the
    bit out on a graphics family). *)
Definition gpu_no_transfer_bit : PhysicalDevice :=
  {| deviceType := eDiscreteGpu; deviceName := "discrete";
     deviceExtensionNames := ["VK_KHR_swapchain"];
     getQueueFamilyProperties := [{| queueFlags := 3 |}];
     getSurfaceSupportKHR := fun _ => VK_TRUE;
     getSurfaceCapabilitiesKHR := caps_undefined_extent;
     getSurfaceFormatsKHR := [preferred_format];
     getSurfacePresentModesKHR := [eFifo];
     createDevice_succeeds := true |}.

(** A platform on which every call succeeds, with the given devices and three
    swapchain images. *)
Definition platform_with (phys_devs : list PhysicalDevice) : Platform :=
  {| SDL_Init_result := 0; SDL_CreateWindow_succeeds := true;
     createInstance_succeeds := true;
     SDL_Vulkan_CreateSurface_succeeds := true;
     enumeratePhysicalDevices := phys_devs;
     createSwapchainKHR_succeeds := true;
     getSwapchainImagesKHR := [0; 1; 2]%nat;
     createImageView_succeeds := fun _ => true;
     file_opens := fun _ => true;
     file_data_allocates := fun _ => true;
     createShaderModule_succeeds := fun _ => true |}.

Definition platform_no_transfer_bit : Platform :=
  platform_with [gpu_no_transfer_bit].

(** The first device is rejected for its missing extension, the second is
    selected. *)
Definition platform_two_gpus : Platform :=
  platform_with [gpu_without_swapchain_extension; gpu_with_swapchain_extension].

(** The objects created, and the objects destroyed, by a sequence of calls. *)
Definition created (tr : list event) : list object :=
  omap (fun e => match e with Create o _ => Some o | Destroy _ => None end) tr.

Definition destroyed (tr : list event) : list object :=
  omap (fun e => match e with Destroy o => Some o | Create _ _ => None end) tr.

(** The objects created and not destroyed so far, in creation order. *)
Definition live (tr : list event) : list object :=
  list_difference (created tr) (destroyed tr).

(** The calls made after the constructor ended. *)
Definition teardown (pf : Platform) : list event :=
  drop (length (trace (snd (Application_ctor pf initial_state))))
       (trace (snd (Application_lifetime pf))).

(** Surface creation fails: the window and the instance exist. *)
Definition platform_surface_fails : Platform :=
  {| SDL_Init_result := 0; SDL_CreateWindow_succeeds := true;
     createInstance_succeeds := true;
     SDL_Vulkan_CreateSurface_succeeds := false;
     enumeratePhysicalDevices := [gpu_with_swapchain_extension];
     createSwapchainKHR_succeeds := true;
     getSwapchainImagesKHR := [0; 1; 2]%nat;
     createImageView_succeeds := fun _ => true;
     file_opens := fun _ => true;
     file_data_allocates := fun _ => true;
     createShaderModule_succeeds := fun _ => true |}.

(** Every listed step succeeds; the shader file is then missing. *)
Definition platform_shader_missing : Platform :=
  {| SDL_Init_result := 0; SDL_CreateWindow_succeeds := true;
     createInstance_succeeds := true;
     SDL_Vulkan_CreateSurface_succeeds := true;
     enumeratePhysicalDevices := [gpu_with_swapchain_extension];
     createSwapchainKHR_succeeds := true;
     getSwapchainImagesKHR := [0; 1; 2]%nat;
     createImageView_succeeds := fun _ => true;
     file_opens := fun _ => false;
     file_data_allocates := fun _ => true;
     createShaderModule_succeeds := fun _ => true |}.

(** The order in which the destructor destroys what is left. *)
Definition teardown_order (count : nat) : list object :=
  created_views 0 count ++ [Swapchain; Surface; Device; Instance; Window].

(** ** The event loop of [run]

    [SDL_PollEvent] either hands out the next pending event or reports that
    none is pending; the loop of [run] is read against the sequence of these
    answers. *)

Inductive SDL_EventType : Type :=
  | SDL_QUIT
  | SDL_OTHEREVENT (type : Z).

#[global] Instance SDL_EventType_eq_dec : EqDecision SDL_EventType.
Proof. solve_decision. Defined.

(** One answer of [SDL_PollEvent]: [Some e] for the event [e] (return value
    1), [None] when no event is pending (return value 0). *)
Definition poll : Type := option SDL_EventType.

(** The two nested loops of [run], from a point inside the inner loop with
    the current value of the flag [loop]. The result is the answers left
    unread when [run] returns, or [None] when the answers given run out before
    the outer loop ends. *)
Fixpoint run_loop (loop : bool) (polls : list poll) : option (list poll) :=
  match polls with
  | [] => None
  | Some event :: rest =>
      run_loop (if bool_decide (event = SDL_QUIT) then false else loop) rest
  | None :: rest => if loop then run_loop loop rest else Some rest
  end.

(** [Application::run]: the window is shown, the loop runs, the window is
    hidden; no object is created or destroyed. *)
Definition Application_run (polls : list poll) : option (list poll) :=
  run_loop true polls.

(** ** More vocabulary *)

(** An outcome other than a normal return. *)
Definition failed {A} (o : outcome A) : Prop :=
  match o with
  | Ret _ => False
  | Throw _ | Undefined => True
  end.

(** Some family of the device offers the role. *)
Definition some_family_offers (phys_dev : PhysicalDevice) (r : QueueRole)
  : Prop :=
  exists i prop,
    0 <= i
    /\ getQueueFamilyProperties phys_dev !! Z.to_nat i = Some prop
    /\ family_offers phys_dev r i prop = true.

(** The objects of a complete start-up, in the order of their creation. *)
Definition ctor_creation_order (pf : Platform) : list object :=
  [Window; Instance; Surface; Device; Swapchain]
  ++ created_views 0 (length (getSwapchainImagesKHR pf))
  ++ [ShaderModule "vert.spv"; ShaderModule "frag.spv"].

(** The state after [count] views were created from state [s]. *)
Definition with_views (count : nat) (s : State) : State :=
  let from := length (swapchain_image_views_ s) in
  set_swapchain_image_views_
    (swapchain_image_views_ s ++ created_views from count)
    (set_trace (trace s ++ view_creations from count) s).

(** A platform whose first suitable device has no transfer family and whose
    second device has every role. *)
Definition platform_first_gpu_degraded : Platform :=
  platform_with [gpu_no_transfer_bit; gpu_with_swapchain_extension].

(** A platform on which the second [createImageView] call fails. *)
Definition platform_second_view_fails : Platform :=
  {| SDL_Init_result := 0; SDL_CreateWindow_succeeds := true;
     createInstance_succeeds := true;
     SDL_Vulkan_CreateSurface_succeeds := true;
     enumeratePhysicalDevices := [gpu_with_swapchain_extension];
     createSwapchainKHR_succeeds := true;
     getSwapchainImagesKHR := [0; 1; 2]%nat;
     createImageView_succeeds := fun k => negb (k =? 1)%nat;
     file_opens := fun _ => true;
     file_data_allocates := fun _ => true;
     createShaderModule_succeeds := fun _ => true |}.

(** A platform on which the fragment shader module cannot be created. *)
Definition platform_frag_module_fails : Platform :=
  {| SDL_Init_result := 0; SDL_CreateWindow_succeeds := true;
     createInstance_succeeds := true;
     SDL_Vulkan_CreateSurface_succeeds := true;
     enumeratePhysicalDevices := [gpu_with_swapchain_extension];
     createSwapchainKHR_succeeds := true;
     getSwapchainImagesKHR := [0; 1; 2]%nat;
     createImageView_succeeds := fun _ => true;
     file_opens := fun _ => true;
     file_data_allocates := fun _ => true;
     createShaderModule_succeeds :=
       fun file => negb (bool_decide (file = "frag.spv")) |}.

(** After a start-up that ended with outcome [o] in state [s]: the objects
    created so far are an initial part of the creation order, none of them
    twice; only shader modules were destroyed; and after a normal return all
    of them were created. *)
Definition creation_order_respected (pf : Platform) (o : outcome unit)
    (s : State) : Prop :=
  created (trace s) `prefix_of` ctor_creation_order pf
  /\ NoDup (created (trace s))
  /\ (forall x, x ∈ destroyed (trace s) -> exists file, x = ShaderModule file)
  /\ (o = Ret tt -> created (trace s) = ctor_creation_order pf).

(** A platform on which "vert.spv" opens but cannot be sized (a directory):
    the vector for its bytes cannot be constructed. *)
Definition platform_vert_unsizable : Platform :=
  {| SDL_Init_result := 0; SDL_CreateWindow_succeeds := true;
     createInstance_succeeds := true;
     SDL_Vulkan_CreateSurface_succeeds := true;
     enumeratePhysicalDevices := [gpu_with_swapchain_extension];
     createSwapchainKHR_succeeds := true;
     getSwapchainImagesKHR := [0; 1; 2]%nat;
     createImageView_succeeds := fun _ => true;
     file_opens := fun _ => true;
     file_data_allocates :=
       fun file => negb (bool_decide (file = "vert.spv"));
     createShaderModule_succeeds := fun _ => true |}.

(** * Properties *)

(** ** Helper facts on the library functions *)

Lemma clamp_in_range (v lo hi : Z) :
  lo <= hi -> clamp v lo hi = Ret (Z.max lo (Z.min v hi)).
Proof.
  intros Hle. unfold clamp.
  destruct (Z.ltb_spec hi lo) as [Hbad | _]; [lia |].
  destruct (Z.ltb_spec v lo) as [Hlow | Hnlow].
  - f_equal. lia.
  - destruct (Z.ltb_spec hi v) as [Hhigh | Hnhigh]; f_equal; lia.
Qed.

Lemma clamp_result_bounds (v lo hi r : Z) :
  clamp v lo hi = Ret r -> lo <= r <= hi.
Proof.
  unfold clamp.
  destruct (Z.ltb_spec hi lo); [discriminate |].
  destruct (Z.ltb_spec v lo); [intros [= <-]; lia |].
  destruct (Z.ltb_spec hi v); intros [= <-]; lia.
Qed.

Lemma find_is_Some_first {A} (f : A -> bool) (l : list A) (r : A) :
  find f l = Some r ->
  exists pre post,
    l = pre ++ r :: post /\ f r = true /\ Forall (fun x => f x = false) pre.
Proof.
  induction l as [| x l IH]; simpl; [discriminate |].
  destruct (f x) eqn:Hfx.
  - intros [= ->]. exists [], l. split; [reflexivity |]. split; [assumption |].
    constructor.
  - intros Hfind. destruct (IH Hfind) as (pre & post & -> & Hr & Hpre).
    exists (x :: pre), post. split; [reflexivity |]. split; [assumption |].
    constructor; assumption.
Qed.

Lemma find_is_None {A} (f : A -> bool) (l : list A) :
  find f l = None <-> Forall (fun x => f x = false) l.
Proof.
  induction l as [| x l IH]; simpl.
  - split; [constructor | reflexivity].
  - destruct (f x) eqn:Hfx.
    + split; [discriminate |]. intros Hall. inversion Hall; congruence.
    + rewrite IH. split.
      * intros Hall. constructor; assumption.
      * intros Hall. inversion Hall; assumption.
Qed.

(** ** Present mode selection *)

(** C7. For every offered list of present modes, the selection is mailbox
    when the list contains mailbox and FIFO when it does not (the empty list
    included); so the result is always one of these two modes. *)
Theorem chooseSwapPresentMode_mailbox_or_fifo (present_modes : list PresentModeKHR) :
  chooseSwapPresentMode present_modes
  = (if decide (eMailbox ∈ present_modes) then eMailbox else eFifo)
  /\ chooseSwapPresentMode [] = eFifo
  /\ (chooseSwapPresentMode present_modes = eMailbox
      \/ chooseSwapPresentMode present_modes = eFifo).
Proof.
  assert (Hmain : chooseSwapPresentMode present_modes
                  = if decide (eMailbox ∈ present_modes) then eMailbox else eFifo).
  { induction present_modes as [| m rest IH]; simpl.
    - destruct (decide (eMailbox ∈ [])) as [Hin | _]; [| reflexivity].
      inversion Hin.
    - destruct (bool_decide_reflect (m = eMailbox)) as [-> | Hne].
      + destruct (decide (eMailbox ∈ eMailbox :: rest)) as [_ | Hnin];
          [reflexivity |].
        exfalso. apply Hnin. left.
      + rewrite IH.
        destruct (decide (eMailbox ∈ rest)) as [Hin | Hnin];
          destruct (decide (eMailbox ∈ m :: rest)) as [Hin' | Hnin'];
          try reflexivity.
        * exfalso. apply Hnin'. right. assumption.
        * exfalso. inversion Hin'; subst; [congruence | contradiction]. }
  split; [exact Hmain |]. split; [reflexivity |].
  rewrite Hmain. destruct (decide (eMailbox ∈ present_modes)); [left | right];
    reflexivity.
Qed.

Example chooseSwapPresentMode_examples :
  chooseSwapPresentMode [eFifo; eImmediate; eMailbox; eFifoRelaxed] = eMailbox
  /\ chooseSwapPresentMode [eImmediate; eFifoRelaxed] = eFifo
  /\ chooseSwapPresentMode [] = eFifo.
Proof. split; [reflexivity |]. split; reflexivity. Qed.

(** ** Surface format selection *)

Lemma is_preferred_format_true (i : SurfaceFormatKHR) :
  is_preferred_format i = true <-> i = preferred_format.
Proof.
  unfold is_preferred_format, preferred_format. destruct i as [f c]; simpl.
  rewrite andb_true_iff, !bool_decide_eq_true. split.
  - intros [-> ->]. reflexivity.
  - intros [= -> ->]. split; reflexivity.
Qed.

Lemma is_preferred_format_false (i : SurfaceFormatKHR) :
  is_preferred_format i = false <-> i <> preferred_format.
Proof.
  rewrite <- is_preferred_format_true.
  destruct (is_preferred_format i); split; congruence.
Qed.

Lemma chooseSwapSurfaceFormat_singleton (r : SurfaceFormatKHR) :
  chooseSwapSurfaceFormat [r] = Ret r.
Proof.
  unfold chooseSwapSurfaceFormat; simpl.
  destruct (is_preferred_format r); reflexivity.
Qed.

Lemma chooseSwapSurfaceFormat_nonempty (first : SurfaceFormatKHR)
    (rest : list SurfaceFormatKHR) :
  exists r, chooseSwapSurfaceFormat (first :: rest) = Ret r /\ r ∈ first :: rest.
Proof.
  unfold chooseSwapSurfaceFormat.
  destruct (find is_preferred_format (first :: rest)) as [r |] eqn:Hfind.
  - exists r. split; [reflexivity |].
    destruct (find_is_Some_first _ _ _ Hfind) as (pre & post & -> & _ & _).
    apply list_elem_of_In, in_or_app. right. left. reflexivity.
  - exists first. split; [reflexivity | left].
Qed.

(** C6. For every non-empty offered list: when the list holds the pair
    (B8G8R8A8 sRGB, sRGB non-linear) the selection returns that pair, taken at
    its first position in the list; otherwise it returns the first element of
    the list; and selecting again from the one-element list made of the result
    returns the same value. *)
Theorem chooseSwapSurfaceFormat_preferred_or_first
    (first : SurfaceFormatKHR) (rest : list SurfaceFormatKHR) :
  exists r,
    chooseSwapSurfaceFormat (first :: rest) = Ret r
    /\ (if decide (preferred_format ∈ first :: rest)
        then r = preferred_format
             /\ exists pre post, first :: rest = pre ++ r :: post
                                 /\ preferred_format ∉ pre
        else r = first)
    /\ chooseSwapSurfaceFormat [r] = Ret r.
Proof.
  unfold chooseSwapSurfaceFormat at 1.
  destruct (find is_preferred_format (first :: rest)) as [r |] eqn:Hfind.
  - exists r. split; [reflexivity |].
    split; [| apply chooseSwapSurfaceFormat_singleton].
    destruct (find_is_Some_first _ _ _ Hfind) as (pre & post & Heq & Hr & Hpre).
    apply is_preferred_format_true in Hr.
    destruct (decide (preferred_format ∈ first :: rest)) as [_ | Hnin].
    + split; [assumption |]. exists pre, post. split; [assumption |].
      intros Hin. rewrite Forall_forall in Hpre.
      apply Hpre, is_preferred_format_false in Hin. congruence.
    + exfalso. apply Hnin. rewrite Heq, <- Hr.
      apply list_elem_of_In, in_or_app. right. left. reflexivity.
  - exists first. split; [reflexivity |].
    split; [| apply chooseSwapSurfaceFormat_singleton].
    destruct (decide (preferred_format ∈ first :: rest)) as [Hin | _];
      [| reflexivity].
    exfalso. apply find_is_None in Hfind. rewrite Forall_forall in Hfind.
    apply Hfind, is_preferred_format_false in Hin. congruence.
Qed.

Example chooseSwapSurfaceFormat_examples :
  chooseSwapSurfaceFormat
    [ {| format := eB8G8R8A8Unorm; colorSpace := eSrgbNonlinear |};
      {| format := eB8G8R8A8Srgb; colorSpace := eSrgbNonlinear |} ]
  = Ret {| format := eB8G8R8A8Srgb; colorSpace := eSrgbNonlinear |}
  /\ chooseSwapSurfaceFormat
       [ {| format := eR8G8B8A8Srgb; colorSpace := eSrgbNonlinear |};
         {| format := eB8G8R8A8Unorm; colorSpace := eSrgbNonlinear |} ]
     = Ret {| format := eR8G8B8A8Srgb; colorSpace := eSrgbNonlinear |}
  /\ chooseSwapSurfaceFormat [] = Undefined.
Proof. split; [reflexivity |]. split; reflexivity. Qed.

(** ** Extent selection *)

(** C3, as stated, fails: with the sentinel in the width only, the two
    components are not both the sentinel, yet the result is the clamped window
    size and not the current extent. *)
Lemma chooseSwapExtent_width_sentinel_only :
  ~ (width (currentExtent caps_width_sentinel_only) = UINT32_MAX
     /\ height (currentExtent caps_width_sentinel_only) = UINT32_MAX)
  /\ chooseSwapExtent caps_width_sentinel_only
     = Ret {| width := 800; height := 600 |}
  /\ chooseSwapExtent caps_width_sentinel_only
     <> Ret (currentExtent caps_width_sentinel_only).
Proof.
  split; [intros [_ Hh]; discriminate Hh |].
  split; [reflexivity |]. discriminate.
Qed.

(** C3, amended. When neither component of the current extent is the maximum
    [uint32_t] value, the result is the current extent, unmodified. When the
    width or the height (one of them is enough) is that value, and the minimum
    extent does not exceed the maximum extent on either axis, the result is the
    window size 800 x 600 clamped per axis into the range from the minimum to
    the maximum extent. *)
Theorem chooseSwapExtent_either_sentinel (caps : SurfaceCapabilitiesKHR) :
  (width (currentExtent caps) <> UINT32_MAX
   /\ height (currentExtent caps) <> UINT32_MAX ->
   chooseSwapExtent caps = Ret (currentExtent caps))
  /\ (width (currentExtent caps) = UINT32_MAX
      \/ height (currentExtent caps) = UINT32_MAX ->
      width (minImageExtent caps) <= width (maxImageExtent caps) ->
      height (minImageExtent caps) <= height (maxImageExtent caps) ->
      chooseSwapExtent caps
      = Ret {| width := Z.max (width (minImageExtent caps))
                          (Z.min window_width_ (width (maxImageExtent caps)));
               height := Z.max (height (minImageExtent caps))
                           (Z.min window_height_
                              (height (maxImageExtent caps))) |}).
Proof.
  unfold chooseSwapExtent. split.
  - intros [Hw Hh].
    destruct (Z.eqb_spec (width (currentExtent caps)) UINT32_MAX);
      [contradiction |].
    destruct (Z.eqb_spec (height (currentExtent caps)) UINT32_MAX);
      [contradiction |].
    reflexivity.
  - intros Hsentinel Hwidth Hheight.
    rewrite (clamp_in_range _ _ _ Hwidth), (clamp_in_range _ _ _ Hheight).
    destruct (Z.eqb_spec (width (currentExtent caps)) UINT32_MAX);
      destruct (Z.eqb_spec (height (currentExtent caps)) UINT32_MAX);
      simpl; try reflexivity.
    destruct Hsentinel; contradiction.
Qed.

Lemma chooseSwapExtent_either_sentinel_witness :
  chooseSwapExtent caps_undefined_extent = Ret {| width := 800; height := 600 |}
  /\ chooseSwapExtent caps_width_sentinel_only
     = Ret {| width := 800; height := 600 |}
  /\ chooseSwapExtent caps_fixed_extent = Ret {| width := 1024; height := 768 |}.
Proof.
  split; [| split].
  - apply (proj2 (chooseSwapExtent_either_sentinel caps_undefined_extent)).
    + left. reflexivity.
    + simpl. lia.
    + simpl. lia.
  - apply (proj2 (chooseSwapExtent_either_sentinel caps_width_sentinel_only)).
    + left. reflexivity.
    + simpl. lia.
    + simpl. lia.
  - apply (proj1 (chooseSwapExtent_either_sentinel caps_fixed_extent)).
    split; discriminate.
Defined.

(** ** Swapchain image count *)

(** C8. For every capability snapshot with [uint32_t] counts: when
    [maxImageCount] is zero the chosen count is [minImageCount + 1] as the
    [uint32_t] addition computes it (exactly [minImageCount + 1] below the
    largest [uint32_t]) and no clamp is applied; when [maxImageCount] is not
    zero, a chosen count never exceeds [maxImageCount], and with
    [minImageCount <= maxImageCount] (the precondition of [std::clamp], which
    the driver guarantees) the chosen count is [minImageCount + 1] cut down to
    [maxImageCount]. So counts (2, 0) give 3 and counts (2, 2) give 2. *)
Theorem initSwapchain_image_count_spec (caps : SurfaceCapabilitiesKHR) :
  is_u32 (minImageCount caps) ->
  is_u32 (maxImageCount caps) ->
  (maxImageCount caps = 0 ->
   initSwapchain_image_count caps = Ret (u32 (minImageCount caps + 1))
   /\ (minImageCount caps <> UINT32_MAX ->
       initSwapchain_image_count caps = Ret (minImageCount caps + 1)))
  /\ (maxImageCount caps <> 0 ->
      minImageCount caps <= maxImageCount caps ->
      initSwapchain_image_count caps
      = Ret (Z.min (minImageCount caps + 1) (maxImageCount caps))
      /\ Z.min (minImageCount caps + 1) (maxImageCount caps)
         <= maxImageCount caps)
  /\ (maxImageCount caps <> 0 ->
      forall image_count,
        initSwapchain_image_count caps = Ret image_count ->
        image_count <= maxImageCount caps).
Proof.
  unfold is_u32, UINT32_MAX, initSwapchain_image_count, u32.
  intros Hmin Hmax. split; [| split].
  - intros Hzero. rewrite Hzero. simpl. split; [reflexivity |].
    intros Hne. rewrite Z.mod_small by lia. reflexivity.
  - intros Hnz Hle.
    destruct (Z.ltb_spec 0 (maxImageCount caps)) as [_ | Hbad]; [| lia].
    split; [| lia].
    rewrite (clamp_in_range _ _ _ Hle). f_equal.
    destruct (Z.eq_dec (minImageCount caps) 4294967295) as [Heq | Hne].
    + rewrite Heq in *. simpl. lia.
    + rewrite Z.mod_small by lia. lia.
  - intros Hnz image_count.
    destruct (Z.ltb_spec 0 (maxImageCount caps)) as [_ | Hbad]; [| lia].
    intros Hclamp. apply clamp_result_bounds in Hclamp. lia.
Qed.

Lemma initSwapchain_image_count_spec_witness :
  initSwapchain_image_count caps_undefined_extent = Ret 3
  /\ initSwapchain_image_count caps_fixed_extent = Ret 2.
Proof.
  split.
  - apply (proj1 (initSwapchain_image_count_spec caps_undefined_extent
                    ltac:(vm_compute; split; discriminate)
                    ltac:(vm_compute; split; discriminate))).
    + reflexivity.
    + discriminate.
  - apply (proj1 (proj2 (initSwapchain_image_count_spec caps_fixed_extent
                           ltac:(vm_compute; split; discriminate)
                           ltac:(vm_compute; split; discriminate)))).
    + discriminate.
    + simpl. lia.
Defined.

(** ** Image sharing policy *)

(** C9. For all resolved graphics and present indices [g] and [p]: the sharing
    computed by [initSwapchain] is exclusive with an empty index list when
    [g = p], and concurrent with the index list [g, p] when they differ; and
    every creation descriptor that [initSwapchain] builds carries exactly that
    mode and that list. *)
Theorem initSwapchain_sharing_spec (q : QueueFamilyIndices) (g p : Z) :
  graphics q = Some g ->
  present q = Some p ->
  initSwapchain_sharing q = Ret (sharing_policy g p)
  /\ (g = p -> sharing_policy g p = (eExclusive, []))
  /\ (g <> p -> sharing_policy g p = (eConcurrent, [g; p]))
  /\ forall swapchain_support create_info,
       initSwapchain_create_info swapchain_support q = Ret create_info ->
       (ci_imageSharingMode create_info, ci_queueFamilyIndices create_info)
       = sharing_policy g p.
Proof.
  intros Hg Hp.
  assert (Hsharing : initSwapchain_sharing q = Ret (sharing_policy g p)).
  { unfold initSwapchain_sharing, sharing_policy. rewrite Hg, Hp. simpl.
    destruct (Z.eqb_spec g p); destruct (decide (g = p)); simpl;
      try reflexivity; contradiction. }
  split; [exact Hsharing |]. unfold sharing_policy at 1 2.
  split; [intros Heq; destruct (decide (g = p)); [reflexivity | contradiction] |].
  split; [intros Hne; destruct (decide (g = p)); [contradiction | reflexivity] |].
  intros swapchain_support create_info. unfold initSwapchain_create_info.
  rewrite Hsharing.
  destruct (chooseSwapSurfaceFormat (formats swapchain_support)); simpl;
    try discriminate.
  destruct (chooseSwapExtent (capabilities swapchain_support)); simpl;
    try discriminate.
  destruct (initSwapchain_image_count (capabilities swapchain_support)); simpl;
    try discriminate.
  intros [= <-]. simpl. destruct (sharing_policy g p); reflexivity.
Qed.

Lemma initSwapchain_sharing_spec_witness :
  initSwapchain_sharing
    {| graphics := Some 0; transfer := Some 0; compute := Some 0;
       present := Some 0 |} = Ret (eExclusive, [])
  /\ initSwapchain_sharing
       {| graphics := Some 0; transfer := Some 0; compute := Some 0;
          present := Some 2 |} = Ret (eConcurrent, [0; 2]).
Proof.
  split.
  - apply (proj1 (initSwapchain_sharing_spec
                    {| graphics := Some 0; transfer := Some 0;
                       compute := Some 0; present := Some 0 |} 0 0
                    eq_refl eq_refl)).
  - apply (proj1 (initSwapchain_sharing_spec
                    {| graphics := Some 0; transfer := Some 0;
                       compute := Some 0; present := Some 2 |} 0 2
                    eq_refl eq_refl)).
Defined.

(** ** Suitability *)

Lemma unsupported_extensions_difference (reported : list string)
    (s : gset string) :
  fold_left (fun s name => s ∖ {[ name ]}) reported s
  = s ∖ list_to_set reported.
Proof.
  revert s. induction reported as [| name reported IH]; intros s; simpl.
  - set_solver.
  - rewrite IH. set_solver.
Qed.

Lemma unsupported_extensions_empty (required reported : list string) :
  unsupported_extensions required reported = ∅ <-> required ⊆ reported.
Proof.
  unfold unsupported_extensions. rewrite unsupported_extensions_difference.
  split.
  - intros Hempty name Hin.
    destruct (decide (name ∈ reported)) as [Hrep | Hnrep]; [assumption |].
    assert (Hmem : name ∈ (list_to_set required : gset string)
                          ∖ list_to_set reported) by set_solver.
    rewrite Hempty in Hmem. set_solver.
  - intros Hsub. apply leibniz_equiv. set_solver.
Qed.

Lemma vector_empty_false {A} (v : list A) : vector_empty v = false <-> v <> [].
Proof. destruct v; simpl; split; congruence. Qed.

Lemma isDeviceSuitable_true (phys_dev : PhysicalDevice) :
  isDeviceSuitable phys_dev = true <->
  deviceType phys_dev = eDiscreteGpu
  /\ required_device_extensions_ ⊆ deviceExtensionNames phys_dev
  /\ getSurfaceFormatsKHR phys_dev <> []
  /\ getSurfacePresentModesKHR phys_dev <> [].
Proof.
  unfold isDeviceSuitable, querySwapchainSupportDetails; simpl formats;
    simpl present_modes.
  rewrite <- unsupported_extensions_empty, <- !vector_empty_false.
  destruct (bool_decide_reflect (deviceType phys_dev = eDiscreteGpu))
    as [Htype | Htype]; simpl.
  - destruct (bool_decide_reflect
                (unsupported_extensions required_device_extensions_
                   (deviceExtensionNames phys_dev) = ∅)) as [Hext | Hext];
      simpl.
    + destruct (vector_empty (getSurfaceFormatsKHR phys_dev));
        destruct (vector_empty (getSurfacePresentModesKHR phys_dev));
        simpl; split; try discriminate; try tauto.
      intros (_ & _ & Hf & _). discriminate.
      intros (_ & _ & Hf & _). discriminate.
      intros (_ & _ & _ & Hp). discriminate.
    + split; [discriminate | tauto].
  - split; [discriminate | tauto].
Qed.

(** C5. The required device-extension set is fixed and contains the swapchain
    extension. For every device, whatever its type and its swapchain support,
    [isDeviceSuitable] is false when some required extension is missing from
    the names the device reports; and it is true exactly when the device is a
    discrete GPU, every required extension is reported, and the device offers
    at least one surface format and at least one present mode. *)
Theorem isDeviceSuitable_spec (phys_dev : PhysicalDevice) :
  "VK_KHR_swapchain" ∈ required_device_extensions_
  /\ (~ required_device_extensions_ ⊆ deviceExtensionNames phys_dev ->
      isDeviceSuitable phys_dev = false)
  /\ (isDeviceSuitable phys_dev = true <->
      deviceType phys_dev = eDiscreteGpu
      /\ required_device_extensions_ ⊆ deviceExtensionNames phys_dev
      /\ getSurfaceFormatsKHR phys_dev <> []
      /\ getSurfacePresentModesKHR phys_dev <> []).
Proof.
  split; [left |]. split; [| apply isDeviceSuitable_true].
  intros Hmissing.
  destruct (isDeviceSuitable phys_dev) eqn:Hsuitable; [| reflexivity].
  apply isDeviceSuitable_true in Hsuitable. tauto.
Qed.

Lemma isDeviceSuitable_spec_witness :
  isDeviceSuitable gpu_without_swapchain_extension = false
  /\ isDeviceSuitable gpu_with_swapchain_extension = true.
Proof.
  split.
  - apply (proj1 (proj2 (isDeviceSuitable_spec gpu_without_swapchain_extension))).
    intros Hsub. specialize (Hsub "VK_KHR_swapchain"). simpl in Hsub.
    assert (Hin : "VK_KHR_swapchain" ∈ ["VK_KHR_maintenance1"])
      by (apply Hsub; left).
    apply list_elem_of_In in Hin. simpl in Hin.
    destruct Hin as [Heq | []]. discriminate Heq.
  - apply (proj2 (proj2 (isDeviceSuitable_spec gpu_with_swapchain_extension))).
    split; [reflexivity |]. split; [| split; discriminate].
    intros name Hin. apply list_elem_of_In in Hin. simpl in Hin.
    destruct Hin as [<- | []]. right. left.
Defined.

(** ** Queue family resolution *)

Lemma findQueueFamilies_body_resolved phys_dev i prop q r :
  resolved r (findQueueFamilies_body phys_dev i prop q)
  = if family_offers phys_dev r i prop then Some i else resolved r q.
Proof.
  unfold findQueueFamilies_body, family_offers.
  destruct (has_flag (queueFlags prop) eGraphics),
           (has_flag (queueFlags prop) eTransfer),
           (has_flag (queueFlags prop) eCompute),
           (getSurfaceSupportKHR phys_dev i =? VK_TRUE), r; reflexivity.
Qed.

Lemma findQueueFamilies_loop_snoc phys_dev props prop :
  forall i q,
    findQueueFamilies_loop phys_dev i (props ++ [prop]) q
    = findQueueFamilies_body phys_dev (i + Z.of_nat (length props)) prop
        (findQueueFamilies_loop phys_dev i props q).
Proof.
  induction props as [| p props IH]; intros i q; simpl.
  - rewrite Z.add_0_r. reflexivity.
  - rewrite IH. f_equal. lia.
Qed.

Lemma findQueueFamilies_loop_correct phys_dev props :
  resolution_correct phys_dev props
    (findQueueFamilies_loop phys_dev 0 props
       {| graphics := None; transfer := None; compute := None;
          present := None |}).
Proof.
  induction props as [| prop props IH] using rev_ind.
  - intros r. destruct r; simpl; intros j prop _ Hlookup; discriminate Hlookup.
  - intros r. rewrite findQueueFamilies_loop_snoc, Z.add_0_l.
    rewrite findQueueFamilies_body_resolved. specialize (IH r).
    set (n := Z.of_nat (length props)).
    assert (Hn : Z.to_nat n = length props) by (unfold n; lia).
    destruct (family_offers phys_dev r n prop) eqn:Hoffers.
    + split; [unfold n; lia |]. split.
      * exists prop. split; [| assumption].
        rewrite Hn, lookup_app_r, Nat.sub_diag by reflexivity. reflexivity.
      * intros j prop' Hlt Hlookup. apply lookup_lt_Some in Hlookup.
        rewrite length_app in Hlookup. simpl in Hlookup. unfold n in *. lia.
    + assert (Hlast : forall j prop', 0 <= j ->
                (props ++ [prop]) !! Z.to_nat j = Some prop' ->
                props !! Z.to_nat j = Some prop' \/ (j = n /\ prop' = prop)).
      { intros j prop' Hj Hlookup.
        destruct (decide (Z.to_nat j < length props)%nat) as [Hin | Hout].
        - left. rewrite lookup_app_l in Hlookup; assumption.
        - right. pose proof (lookup_lt_Some _ _ _ Hlookup) as Hlen.
          rewrite length_app in Hlen. simpl in Hlen.
          assert (Hj' : Z.to_nat j = length props) by lia.
          rewrite Hj', lookup_app_r, Nat.sub_diag in Hlookup by reflexivity.
          simpl in Hlookup. split; [unfold n; lia | congruence]. }
      destruct (resolved r _) as [i |].
      * destruct IH as (Hi & (prop0 & Hlookup0 & Hoffers0) & Hlater).
        split; [assumption |]. split.
        -- exists prop0. split; [| assumption].
           rewrite lookup_app_l; [assumption |].
           apply lookup_lt_Some in Hlookup0. assumption.
        -- intros j prop' Hlt Hlookup.
           destruct (Hlast j prop' ltac:(lia) Hlookup) as [Hold | [-> ->]];
             [eapply Hlater; eassumption | assumption].
      * intros j prop' Hj Hlookup.
        destruct (Hlast j prop' Hj Hlookup) as [Hold | [-> ->]];
          [eapply IH; eassumption | assumption].
Qed.

(** C4. The resolution is one scan of the family list in index order (the
    definition of [findQueueFamilies]) in which the family visited at index
    [i] overwrites the index of every role it offers and leaves the other
    roles as they were. So, for each of the four roles independently, the
    resolved index is the highest index of the list whose family offers the
    role (capability bit for graphics, transfer and compute; surface-support
    query for present), and the index is unset when no family offers it. One
    family can be resolved for several roles at once: a single family with all
    three bits and surface support is resolved for all four. *)
Theorem findQueueFamilies_highest_index (phys_dev : PhysicalDevice) :
  (forall i prop q r,
     resolved r (findQueueFamilies_body phys_dev i prop q)
     = if family_offers phys_dev r i prop then Some i else resolved r q)
  /\ (forall r,
       match resolved r (findQueueFamilies phys_dev) with
       | Some i =>
           highest_offering phys_dev r (getQueueFamilyProperties phys_dev) i
       | None => none_offering phys_dev r (getQueueFamilyProperties phys_dev)
       end)
  /\ findQueueFamilies gpu_with_swapchain_extension
     = {| graphics := Some 0; transfer := Some 0; compute := Some 0;
          present := Some 0 |}.
Proof.
  split; [intros; apply findQueueFamilies_body_resolved |].
  split; [| reflexivity].
  apply findQueueFamilies_loop_correct.
Qed.

Example findQueueFamilies_three_families :
  findQueueFamilies gpu_three_families
  = {| graphics := Some 0; transfer := Some 2; compute := Some 1;
       present := Some 1 |}.
Proof. reflexivity. Qed.

(** ** Reasoning about the member functions *)

Lemma M_bind_Ret {A B} (m : M A) (k : A -> M B) (s s'' : State) (b : B) :
  (m ≫= k) s = (Ret b, s'') ->
  exists a s', m s = (Ret a, s') /\ k a s' = (Ret b, s'').
Proof.
  unfold mbind, M_bind. destruct (m s) as [[a | e |] s']; try discriminate.
  intros Hk. exists a, s'. split; [reflexivity | assumption].
Qed.

Lemma deref_Ret {A} (f : State -> option A) (s s' : State) (a : A) :
  deref f s = (Ret a, s') -> f s = Some a /\ s' = s.
Proof.
  unfold deref. destruct (f s); [| discriminate].
  intros [= -> ->]. split; reflexivity.
Qed.

Ltac bind_inv H :=
  let a := fresh "a" in
  let s := fresh "s" in
  let H1 := fresh H "_head" in
  apply M_bind_Ret in H; destruct H as (a & s & H1 & H).

Lemma initSDL_Ret pf s s' u :
  initSDL pf s = (Ret u, s') ->
  s' = set_window_ (Some Window)
         (set_trace (trace s ++ [Create Window NoInfo]) s).
Proof.
  unfold initSDL. destruct (SDL_Init_result pf <? 0); [discriminate |].
  destruct (SDL_CreateWindow_succeeds pf); [| discriminate].
  intros [= _ <-]. reflexivity.
Qed.

Lemma initInstance_Ret pf s s' u :
  initInstance pf s = (Ret u, s') ->
  s' = set_surface_ (Some Surface)
         (set_trace (trace s ++ [Create Instance NoInfo; Create Surface NoInfo])
            (set_instance_ (Some Instance) s)).
Proof.
  unfold initInstance. destruct (createInstance_succeeds pf); [| discriminate].
  destruct (SDL_Vulkan_CreateSurface_succeeds pf); [| discriminate].
  intros [= _ <-]. cbv [mbind M_bind emit modify]. simpl.
  rewrite <- app_assoc. reflexivity.
Qed.

Lemma initPhysicalDevice_Ret pf s s' u :
  initPhysicalDevice pf s = (Ret u, s') ->
  exists phys_dev,
    s' = set_physical_device_ (Some phys_dev) s
    /\ phys_dev ∈ enumeratePhysicalDevices pf
    /\ isDeviceSuitable phys_dev = true.
Proof.
  unfold initPhysicalDevice.
  destruct (length (enumeratePhysicalDevices pf) =? 0)%nat; [discriminate |].
  destruct (find isDeviceSuitable (enumeratePhysicalDevices pf))
    as [phys_dev |] eqn:Hfind; [| discriminate].
  intros [= _ <-]. exists phys_dev. split; [reflexivity |].
  destruct (find_is_Some_first _ _ _ Hfind) as (pre & post & -> & Hsuit & _).
  split; [| assumption].
  apply list_elem_of_In, in_or_app. right. left. reflexivity.
Qed.

Lemma initQueueFamilies_Ret s s' u :
  initQueueFamilies s = (Ret u, s') ->
  exists phys_dev lines,
    physical_device_ s = Some phys_dev
    /\ is_Some (graphics (findQueueFamilies phys_dev))
    /\ is_Some (present (findQueueFamilies phys_dev))
    /\ s' = set_cerr (cerr s ++ lines)
              (set_queue_family_indices_ (findQueueFamilies phys_dev) s).
Proof.
  unfold initQueueFamilies. intros H.
  bind_inv H. apply deref_Ret in H_head as [Hdev ->].
  exists a. revert H. cbv [mbind M_bind modify gets]. simpl.
  destruct (bool_decide_reflect (is_Some (graphics (findQueueFamilies a))))
    as [Hg | Hg]; simpl; [| discriminate].
  destruct (bool_decide_reflect (is_Some (present (findQueueFamilies a))))
    as [Hp | Hp]; simpl; [| discriminate].
  destruct (bool_decide (is_Some (transfer (findQueueFamilies a))));
    destruct (bool_decide (is_Some (compute (findQueueFamilies a))));
    simpl; intros [= _ <-].
  - exists []. rewrite app_nil_r. repeat split; assumption.
  - eexists [_]. repeat split; assumption.
  - eexists [_]. repeat split; assumption.
  - eexists [_; _]. rewrite <- app_assoc. repeat split; assumption.
Qed.

Lemma initDevice_Ret s s' u :
  initDevice s = (Ret u, s') ->
  exists g t c p phys_dev,
    queue_family_indices_ s
    = {| graphics := Some g; transfer := Some t; compute := Some c;
         present := Some p |}
    /\ physical_device_ s = Some phys_dev
    /\ s' = set_queues_
              {| queue_graphics := Some (g, 0); queue_transfer := Some (t, 0);
                 queue_compute := Some (c, 0); queue_present := Some (p, 0) |}
              (set_device_ (Some Device)
                 (set_trace
                    (trace s ++ [Create Device (DeviceQueues (std_set [g; t; c; p]))])
                    s)).
Proof.
  unfold initDevice. cbv [mbind M_bind gets lift deref modify emit].
  destruct (queue_family_indices_ s) as [[g |] [t |] [c |] [p |]];
    simpl; try discriminate.
  destruct (physical_device_ s) as [phys_dev |]; simpl; [| discriminate].
  destruct (createDevice_succeeds phys_dev); simpl; [| discriminate].
  intros [= _ <-]. exists g, t, c, p, phys_dev.
  split; [reflexivity |]. split; reflexivity.
Qed.

(** The optional indices are dereferenced unconditionally. *)
Lemma initDevice_unset_optional_role s g :
  graphics (queue_family_indices_ s) = Some g ->
  transfer (queue_family_indices_ s) = None
  \/ compute (queue_family_indices_ s) = None ->
  initDevice s = (Throw bad_optional_access, s).
Proof.
  unfold initDevice. cbv [mbind M_bind gets lift]. intros Hg Hunset.
  destruct (queue_family_indices_ s) as [gr tr co pr]; simpl in *. subst gr.
  destruct Hunset as [-> | ->]; simpl; [reflexivity |].
  destruct tr; reflexivity.
Qed.

Lemma initSwapchain_Ret pf s s' u :
  initSwapchain pf s = (Ret u, s') ->
  exists phys_dev create_info,
    physical_device_ s = Some phys_dev
    /\ initSwapchain_create_info (querySwapchainSupportDetails phys_dev)
         (queue_family_indices_ s) = Ret create_info
    /\ s' = set_swapchain_extent_ (ci_imageExtent create_info)
              (set_swapchain_format_ (ci_imageFormat create_info)
                 (set_swapchain_images_ (getSwapchainImagesKHR pf)
                    (set_swapchain_ (Some Swapchain)
                       (set_trace
                          (trace s ++ [Create Swapchain (SwapchainInfo create_info)])
                          s)))).
Proof.
  unfold initSwapchain. cbv [mbind M_bind gets lift deref modify emit].
  destruct (physical_device_ s) as [phys_dev |]; simpl; [| discriminate].
  destruct (initSwapchain_create_info _ _) as [create_info | |] eqn:Hci;
    simpl; try discriminate.
  destruct (device_ s); simpl; [| discriminate].
  destruct (createSwapchainKHR_succeeds pf); simpl; [| discriminate].
  intros [= _ <-]. exists phys_dev, create_info.
  split; [reflexivity |]. split; [assumption | reflexivity].
Qed.

Lemma initSwapchainImageViews_loop_Ret pf images :
  forall s s' u,
    initSwapchainImageViews_loop pf images s = (Ret u, s') ->
    let from := length (swapchain_image_views_ s) in
    s' = set_swapchain_image_views_
           (swapchain_image_views_ s ++ created_views from (length images))
           (set_trace (trace s ++ view_creations from (length images)) s).
Proof.
  induction images as [| image images IH]; intros s s' u; simpl.
  - intros [= _ <-]. unfold created_views, view_creations. simpl.
    rewrite !app_nil_r. destruct s; reflexivity.
  - cbv [mbind M_bind gets deref modify emit].
    destruct (device_ s) eqn:Hdev; simpl; [| discriminate].
    destruct (createImageView_succeeds pf _); simpl; [| discriminate].
    intros Hrest. apply IH in Hrest. simpl in Hrest. subst s'.
    unfold created_views, view_creations.
    rewrite length_app, Nat.add_1_r. simpl.
    rewrite <- !app_assoc. reflexivity.
Qed.

Lemma initSwapchainImageViews_Ret pf s s' u :
  initSwapchainImageViews pf s = (Ret u, s') ->
  let from := length (swapchain_image_views_ s) in
  let count := length (swapchain_images_ s) in
  s' = set_swapchain_image_views_
         (swapchain_image_views_ s ++ created_views from count)
         (set_trace (trace s ++ view_creations from count) s).
Proof.
  unfold initSwapchainImageViews. cbv [mbind M_bind gets]. simpl.
  apply initSwapchainImageViews_loop_Ret.
Qed.

Lemma initGraphicsPipeline_Ret pf s s' u :
  initGraphicsPipeline pf s = (Ret u, s') ->
  s' = set_trace (trace s ++ pipeline_events) s.
Proof.
  unfold initGraphicsPipeline, readFile, createShaderModule.
  cbv [mbind M_bind gets deref modify emit throw lift mret M_ret].
  destruct (file_opens pf "vert.spv"); simpl; [| discriminate].
  destruct (file_data_allocates pf "vert.spv"); simpl; [| discriminate].
  destruct (file_opens pf "frag.spv"); simpl; [| discriminate].
  destruct (file_data_allocates pf "frag.spv"); simpl; [| discriminate].
  destruct (device_ s) eqn:Hdev; simpl; [| discriminate].
  destruct (createShaderModule_succeeds pf "vert.spv"); simpl;
    [| discriminate].
  rewrite Hdev.
  destruct (createShaderModule_succeeds pf "frag.spv"); simpl;
    [| discriminate].
  intros [= _ <-]. unfold pipeline_events. rewrite <- !app_assoc. reflexivity.
Qed.

Lemma destroyImageViews_run (views : list object) :
  forall s,
    destroyImageViews views s
    = (Ret tt, set_trace (trace s ++ map Destroy views) s).
Proof.
  induction views as [| v views IH]; intros s; simpl.
  - rewrite app_nil_r. destruct s; reflexivity.
  - cbv [mbind M_bind emit modify]. rewrite IH. simpl.
    rewrite <- app_assoc. reflexivity.
Qed.

Lemma Application_ctor_split pf s :
  Application_ctor pf s
  = (startup_before_swapchain pf;;
     initSwapchain pf;;
     initSwapchainImageViews pf;;
     initGraphicsPipeline pf) s.
Proof.
  unfold Application_ctor, startup_before_swapchain.
  cbv [mbind M_bind].
  repeat first
    [ reflexivity
    | match goal with
      | |- context [match ?m with (_, _) => _ end] =>
          destruct m as [[? | ? |] ?]
      end ].
Qed.

Lemma startup_before_swapchain_Ret pf s u :
  startup_before_swapchain pf initial_state = (Ret u, s) ->
  exists phys_dev g t c p lines,
    phys_dev ∈ enumeratePhysicalDevices pf
    /\ isDeviceSuitable phys_dev = true
    /\ findQueueFamilies phys_dev
       = {| graphics := Some g; transfer := Some t; compute := Some c;
            present := Some p |}
    /\ s = {| window_ := Some Window; instance_ := Some Instance;
              physical_device_ := Some phys_dev; device_ := Some Device;
              surface_ := Some Surface; swapchain_ := None;
              swapchain_images_ := []; swapchain_image_views_ := [];
              swapchain_format_ := 0;
              swapchain_extent_ := {| width := 0; height := 0 |};
              queue_family_indices_ := findQueueFamilies phys_dev;
              queues_ :=
                {| queue_graphics := Some (g, 0); queue_transfer := Some (t, 0);
                   queue_compute := Some (c, 0); queue_present := Some (p, 0) |};
              trace :=
                [Create Window NoInfo; Create Instance NoInfo;
                 Create Surface NoInfo;
                 Create Device (DeviceQueues (std_set [g; t; c; p]))];
              cerr := lines |}.
Proof.
  unfold startup_before_swapchain. intros H.
  bind_inv H. apply initSDL_Ret in H_head. subst.
  bind_inv H. apply initInstance_Ret in H_head. subst.
  bind_inv H. apply initPhysicalDevice_Ret in H_head
    as (phys_dev & -> & Hin & Hsuit).
  bind_inv H. apply initQueueFamilies_Ret in H_head
    as (phys_dev' & lines & Hdev & _ & _ & ->).
  simpl in Hdev. injection Hdev as <-.
  apply initDevice_Ret in H as (g & t & c & p & phys_dev' & Hq & _ & ->).
  simpl in Hq. exists phys_dev, g, t, c, p, lines.
  split; [assumption |]. split; [assumption |]. split; [assumption |].
  reflexivity.
Qed.

Lemma Application_ctor_Ret pf s u :
  Application_ctor pf initial_state = (Ret u, s) ->
  let count := length (getSwapchainImagesKHR pf) in
  exists device_created swapchain_created,
    window_ s = Some Window /\ instance_ s = Some Instance
    /\ surface_ s = Some Surface /\ device_ s = Some Device
    /\ swapchain_ s = Some Swapchain
    /\ swapchain_image_views_ s = created_views 0 count
    /\ trace s
       = [Create Window NoInfo; Create Instance NoInfo; Create Surface NoInfo;
          Create Device device_created; Create Swapchain swapchain_created]
         ++ view_creations 0 count ++ pipeline_events.
Proof.
  rewrite Application_ctor_split. intros H.
  bind_inv H. apply startup_before_swapchain_Ret in H_head
    as (phys_dev & g & t & c & p & lines & _ & _ & _ & ->).
  bind_inv H. apply initSwapchain_Ret in H_head
    as (phys_dev' & create_info & _ & _ & ->).
  bind_inv H. apply initSwapchainImageViews_Ret in H_head. simpl in H_head.
  subst. apply initGraphicsPipeline_Ret in H. subst. simpl.
  eexists _, _. repeat (split; [reflexivity |]). reflexivity.
Qed.

(** ** Degraded queue support *)

(** C1. On [gpu_no_transfer_bit] the scan resolves graphics, compute and
    present to family 0 and leaves transfer unset; [initQueueFamilies] returns
    normally after writing the warning; then [initDevice] calls [value()] on
    the unset transfer index, the constructor ends with
    [std::bad_optional_access], and no logical device is created. *)
Theorem startup_with_unset_transfer_index_throws :
  findQueueFamilies gpu_no_transfer_bit
  = {| graphics := Some 0; transfer := None; compute := Some 0;
       present := Some 0 |}
  /\ (exists s0 s1,
        (initSDL platform_no_transfer_bit;;
         initInstance platform_no_transfer_bit;;
         initPhysicalDevice platform_no_transfer_bit) initial_state
        = (Ret tt, s0)
        /\ initQueueFamilies s0 = (Ret tt, s1)
        /\ cerr s1 = ["Could not find a transfer queue for selected device"]
        /\ initDevice s1 = (Throw bad_optional_access, s1))
  /\ exists s,
       Application_ctor platform_no_transfer_bit initial_state
       = (Throw bad_optional_access, s)
       /\ device_ s = None
       /\ trace s = [Create Window NoInfo; Create Instance NoInfo;
                     Create Surface NoInfo]
       /\ cerr s = ["Could not find a transfer queue for selected device"].
Proof.
  split; [reflexivity |]. split.
  - eexists _, _. split; [reflexivity |]. split; [reflexivity |].
    split; reflexivity.
  - eexists. split; [reflexivity |]. split; [reflexivity |].
    split; reflexivity.
Qed.

(** ** Non-empty format list at swapchain creation *)

Lemma M_bind_Undefined {A B} (m : M A) (k : A -> M B) (s s'' : State) :
  (m ≫= k) s = (Undefined, s'') ->
  (exists a s', m s = (Ret a, s') /\ k a s' = (Undefined, s''))
  \/ m s = (Undefined, s'').
Proof.
  unfold mbind, M_bind. destruct (m s) as [[a | e |] s'].
  - intros Hk. left. exists a, s'. split; [reflexivity | assumption].
  - discriminate.
  - intros [= <-]. right. reflexivity.
Qed.

Lemma initSDL_defined pf s s' : initSDL pf s <> (Undefined, s').
Proof.
  unfold initSDL. destruct (SDL_Init_result pf <? 0); [discriminate |].
  destruct (SDL_CreateWindow_succeeds pf); discriminate.
Qed.

Lemma initInstance_defined pf s s' : initInstance pf s <> (Undefined, s').
Proof.
  unfold initInstance. destruct (createInstance_succeeds pf); [| discriminate].
  destruct (SDL_Vulkan_CreateSurface_succeeds pf); discriminate.
Qed.

Lemma initPhysicalDevice_defined pf s s' :
  initPhysicalDevice pf s <> (Undefined, s').
Proof.
  unfold initPhysicalDevice.
  destruct (length (enumeratePhysicalDevices pf) =? 0)%nat; [discriminate |].
  destruct (find isDeviceSuitable (enumeratePhysicalDevices pf)); discriminate.
Qed.

Lemma initQueueFamilies_Undefined s s' :
  initQueueFamilies s = (Undefined, s') -> physical_device_ s = None.
Proof.
  unfold initQueueFamilies.
  cbv [mbind M_bind deref gets modify throw lift print_cerr mret M_ret].
  destruct (physical_device_ s) as [phys_dev |]; [| reflexivity].
  simpl.
  destruct (bool_decide (is_Some (graphics (findQueueFamilies phys_dev))));
    simpl; [| discriminate].
  destruct (bool_decide (is_Some (present (findQueueFamilies phys_dev))));
    simpl; [| discriminate].
  destruct (bool_decide (is_Some (transfer (findQueueFamilies phys_dev))));
    destruct (bool_decide (is_Some (compute (findQueueFamilies phys_dev))));
    simpl; discriminate.
Qed.

Lemma initDevice_Undefined s s' :
  initDevice s = (Undefined, s') -> physical_device_ s = None.
Proof.
  unfold initDevice. cbv [mbind M_bind gets lift deref modify emit throw].
  destruct (queue_family_indices_ s) as [[g |] [t |] [c |] [p |]]; simpl;
    try discriminate.
  destruct (physical_device_ s) as [phys_dev |]; simpl; [| reflexivity].
  destruct (createDevice_succeeds phys_dev); simpl; discriminate.
Qed.

Lemma initSwapchainImageViews_loop_Undefined pf images :
  forall s s',
    initSwapchainImageViews_loop pf images s = (Undefined, s') ->
    device_ s = None.
Proof.
  induction images as [| image images IH]; intros s s'; simpl;
    [discriminate |].
  cbv [mbind M_bind gets deref modify emit throw lift].
  destruct (device_ s) eqn:Hdev; simpl; [| reflexivity].
  destruct (createImageView_succeeds pf _); simpl; [| discriminate].
  intros Hrest. apply IH in Hrest. simpl in Hrest. congruence.
Qed.

Lemma initGraphicsPipeline_Undefined pf s s' :
  initGraphicsPipeline pf s = (Undefined, s') -> device_ s = None.
Proof.
  unfold initGraphicsPipeline, readFile, createShaderModule.
  cbv [mbind M_bind gets deref modify emit throw lift mret M_ret].
  destruct (file_opens pf "vert.spv"); simpl; [| discriminate].
  destruct (file_data_allocates pf "vert.spv"); simpl; [| discriminate].
  destruct (file_opens pf "frag.spv"); simpl; [| discriminate].
  destruct (file_data_allocates pf "frag.spv"); simpl; [| discriminate].
  destruct (device_ s) eqn:Hdev; simpl; [| reflexivity].
  destruct (createShaderModule_succeeds pf "vert.spv"); simpl;
    [| discriminate].
  rewrite Hdev.
  destruct (createShaderModule_succeeds pf "frag.spv"); simpl; discriminate.
Qed.

Lemma startup_before_swapchain_defined pf s' :
  startup_before_swapchain pf initial_state <> (Undefined, s').
Proof.
  unfold startup_before_swapchain. intros H.
  apply M_bind_Undefined in H as [(u & s1 & Hstep & H) | Hstep];
    [| exact (initSDL_defined _ _ _ Hstep)].
  apply initSDL_Ret in Hstep. subst s1.
  apply M_bind_Undefined in H as [(u' & s2 & Hstep & H) | Hstep];
    [| exact (initInstance_defined _ _ _ Hstep)].
  apply initInstance_Ret in Hstep. subst s2.
  apply M_bind_Undefined in H as [(u'' & s3 & Hstep & H) | Hstep];
    [| exact (initPhysicalDevice_defined _ _ _ Hstep)].
  apply initPhysicalDevice_Ret in Hstep as (phys_dev & -> & _ & _).
  apply M_bind_Undefined in H as [(u3 & s4 & Hstep & H) | Hstep];
    [| apply initQueueFamilies_Undefined in Hstep; discriminate Hstep].
  apply initQueueFamilies_Ret in Hstep as (phys_dev' & lines & _ & _ & _ & ->).
  apply initDevice_Undefined in H. discriminate H.
Qed.

(** [initSwapchain] in a state with a selected device, a logical device,
    resolved graphics and present indices, and a device whose format list
    gives the selection [r]. *)
Lemma initSwapchain_with_selected_format pf s phys_dev dev g p r :
  physical_device_ s = Some phys_dev ->
  device_ s = Some dev ->
  graphics (queue_family_indices_ s) = Some g ->
  present (queue_family_indices_ s) = Some p ->
  chooseSwapSurfaceFormat (getSurfaceFormatsKHR phys_dev) = Ret r ->
  (forall s',
     initSwapchain pf s = (Undefined, s') ->
     chooseSwapExtent (getSurfaceCapabilitiesKHR phys_dev) = Undefined
     \/ initSwapchain_image_count (getSurfaceCapabilitiesKHR phys_dev)
        = Undefined)
  /\ (forall s',
        initSwapchain pf s = (Ret tt, s') ->
        swapchain_format_ s' = format r)
  /\ (forall extent image_count,
        chooseSwapExtent (getSurfaceCapabilitiesKHR phys_dev) = Ret extent ->
        initSwapchain_image_count (getSurfaceCapabilitiesKHR phys_dev)
        = Ret image_count ->
        fst (initSwapchain pf s)
        = if createSwapchainKHR_succeeds pf then Ret tt
          else Throw (SystemError "vk::Device::createSwapchainKHR")).
Proof.
  intros Hphys Hdev Hg Hp Hformat.
  assert (Hrun :
    initSwapchain pf s
    = match chooseSwapExtent (getSurfaceCapabilitiesKHR phys_dev),
            initSwapchain_image_count (getSurfaceCapabilitiesKHR phys_dev) with
      | Ret extent, Ret image_count =>
          if createSwapchainKHR_succeeds pf then
            (Ret tt,
             set_swapchain_extent_ extent
               (set_swapchain_format_ (format r)
                  (set_swapchain_images_ (getSwapchainImagesKHR pf)
                     (set_swapchain_ (Some Swapchain)
                        (set_trace
                           (trace s
                            ++ [Create Swapchain
                                  (SwapchainInfo
                                     {| ci_minImageCount := image_count;
                                        ci_imageFormat := format r;
                                        ci_imageColorSpace := colorSpace r;
                                        ci_imageExtent := extent;
                                        ci_imageArrayLayers := 1;
                                        ci_imageSharingMode :=
                                          fst (if negb (g =? p)
                                               then (eConcurrent, [g; p])
                                               else (eExclusive, []));
                                        ci_queueFamilyIndices :=
                                          snd (if negb (g =? p)
                                               then (eConcurrent, [g; p])
                                               else (eExclusive, []));
                                        ci_preTransform :=
                                          currentTransform
                                            (getSurfaceCapabilitiesKHR phys_dev);
                                        ci_presentMode :=
                                          chooseSwapPresentMode
                                            (getSurfacePresentModesKHR phys_dev);
                                        ci_clipped := VK_TRUE |})])
                           s)))))
          else (Throw (SystemError "vk::Device::createSwapchainKHR"), s)
      | Ret _, Throw e => (Throw e, s)
      | Ret _, Undefined => (Undefined, s)
      | Throw e, _ => (Throw e, s)
      | Undefined, _ => (Undefined, s)
      end).
  { unfold initSwapchain, initSwapchain_create_info, initSwapchain_sharing.
    cbv [mbind M_bind gets lift deref modify emit throw].
    rewrite Hphys. simpl. rewrite Hformat, Hg, Hp. simpl.
    destruct (chooseSwapExtent (getSurfaceCapabilitiesKHR phys_dev));
      simpl; try reflexivity.
    destruct (initSwapchain_image_count (getSurfaceCapabilitiesKHR phys_dev));
      simpl; try reflexivity.
    destruct (negb (g =? p)); simpl; rewrite Hdev; simpl;
      destruct (createSwapchainKHR_succeeds pf); reflexivity. }
  rewrite Hrun. split; [| split].
  - intros s'.
    destruct (chooseSwapExtent (getSurfaceCapabilitiesKHR phys_dev));
      [| discriminate | left; reflexivity].
    destruct (initSwapchain_image_count (getSurfaceCapabilitiesKHR phys_dev));
      [| discriminate | right; reflexivity].
    destruct (createSwapchainKHR_succeeds pf); discriminate.
  - intros s'.
    destruct (chooseSwapExtent (getSurfaceCapabilitiesKHR phys_dev));
      try discriminate.
    destruct (initSwapchain_image_count (getSurfaceCapabilitiesKHR phys_dev));
      try discriminate.
    destruct (createSwapchainKHR_succeeds pf); [| discriminate].
    intros [= <-]. reflexivity.
  - intros extent image_count -> ->.
    destruct (createSwapchainKHR_succeeds pf); reflexivity.
Qed.

(** C10. [chooseSwapSurfaceFormat] has no defined result on the empty list
    (the fallback takes [front()] of it) and a result on every non-empty list.
    [isDeviceSuitable] rejects a device whose format list or present-mode list
    is empty. The device selected by the start-up passed [isDeviceSuitable],
    and it is still the selected device when [initSwapchain] runs, so the list
    that [initSwapchain] passes to [chooseSwapSurfaceFormat] is not empty and
    the selection returns a format [r]. Accordingly [initSwapchain], run after
    the first five steps, never ends undefined because of the format list: it
    ends undefined only when the extent or the image count is undefined (a
    violated [std::clamp] precondition); when these two are defined it goes on
    to the creation call; and when it returns, the stored swapchain format is
    the format of [r]. The same holds for the whole constructor: it ends
    undefined only through one of the two clamps on the snapshot of a suitable
    device, never through [front()] of an empty list. *)
Theorem chooseSwapSurfaceFormat_defined_at_swapchain_creation :
  chooseSwapSurfaceFormat [] = Undefined
  /\ (forall first rest,
        exists r, chooseSwapSurfaceFormat (first :: rest) = Ret r)
  /\ (forall phys_dev,
        getSurfaceFormatsKHR phys_dev = []
        \/ getSurfacePresentModesKHR phys_dev = [] ->
        isDeviceSuitable phys_dev = false)
  /\ (forall pf s,
        Application_ctor pf s
        = (startup_before_swapchain pf;; initSwapchain pf;;
           initSwapchainImageViews pf;; initGraphicsPipeline pf) s)
  /\ (forall pf s,
        startup_before_swapchain pf initial_state = (Ret tt, s) ->
        exists phys_dev r,
          physical_device_ s = Some phys_dev
          /\ isDeviceSuitable phys_dev = true
          /\ formats (querySwapchainSupportDetails phys_dev) <> []
          /\ present_modes (querySwapchainSupportDetails phys_dev) <> []
          /\ chooseSwapSurfaceFormat
               (formats (querySwapchainSupportDetails phys_dev)) = Ret r
          /\ (forall s',
                initSwapchain pf s = (Undefined, s') ->
                chooseSwapExtent
                  (capabilities (querySwapchainSupportDetails phys_dev))
                = Undefined
                \/ initSwapchain_image_count
                     (capabilities (querySwapchainSupportDetails phys_dev))
                   = Undefined)
          /\ (forall s',
                initSwapchain pf s = (Ret tt, s') ->
                swapchain_format_ s' = format r)
          /\ (forall extent image_count,
                chooseSwapExtent
                  (capabilities (querySwapchainSupportDetails phys_dev))
                = Ret extent ->
                initSwapchain_image_count
                  (capabilities (querySwapchainSupportDetails phys_dev))
                = Ret image_count ->
                fst (initSwapchain pf s)
                = if createSwapchainKHR_succeeds pf then Ret tt
                  else Throw (SystemError "vk::Device::createSwapchainKHR")))
  /\ (forall pf s',
        Application_ctor pf initial_state = (Undefined, s') ->
        exists phys_dev,
          phys_dev ∈ enumeratePhysicalDevices pf
          /\ isDeviceSuitable phys_dev = true
          /\ (chooseSwapExtent
                (capabilities (querySwapchainSupportDetails phys_dev))
              = Undefined
              \/ initSwapchain_image_count
                   (capabilities (querySwapchainSupportDetails phys_dev))
                 = Undefined)).
Proof.
  split; [reflexivity |].
  split.
  { intros first rest.
    destruct (chooseSwapSurfaceFormat_nonempty first rest) as (r & Hr & _).
    exists r. assumption. }
  split.
  { intros phys_dev Hempty.
    destruct (isDeviceSuitable phys_dev) eqn:Hsuit; [| reflexivity].
    apply isDeviceSuitable_true in Hsuit as (_ & _ & Hf & Hp).
    destruct Hempty; contradiction. }
  split; [apply Application_ctor_split |].
  assert (Hstartup : forall pf s,
            startup_before_swapchain pf initial_state = (Ret tt, s) ->
            exists phys_dev r g p,
              phys_dev ∈ enumeratePhysicalDevices pf
              /\ physical_device_ s = Some phys_dev
              /\ device_ s = Some Device
              /\ graphics (queue_family_indices_ s) = Some g
              /\ present (queue_family_indices_ s) = Some p
              /\ isDeviceSuitable phys_dev = true
              /\ getSurfaceFormatsKHR phys_dev <> []
              /\ getSurfacePresentModesKHR phys_dev <> []
              /\ chooseSwapSurfaceFormat (getSurfaceFormatsKHR phys_dev)
                 = Ret r).
  { intros pf s Hstart.
    apply startup_before_swapchain_Ret in Hstart
      as (phys_dev & g & t & c & p & lines & Hin & Hsuit & Hq & ->).
    pose proof (proj1 (isDeviceSuitable_true phys_dev) Hsuit)
      as (_ & _ & Hf & Hp).
    destruct (getSurfaceFormatsKHR phys_dev) as [| first rest] eqn:Hfmt;
      [contradiction |].
    destruct (chooseSwapSurfaceFormat_nonempty first rest) as (r & Hr & _).
    exists phys_dev, r, g, p. simpl. rewrite Hq, Hfmt. simpl.
    repeat (split; [first [assumption | reflexivity | discriminate] |]).
    assumption. }
  split.
  - intros pf s Hstart.
    destruct (Hstartup pf s Hstart)
      as (phys_dev & r & g & p & _ & Hphys & Hdev & Hg & Hp & Hsuit & Hf
          & Hm & Hr).
    destruct (initSwapchain_with_selected_format pf s phys_dev Device g p r
                Hphys Hdev Hg Hp Hr) as (Hundef & Hret & Hdefined).
    exists phys_dev, r. simpl.
    repeat (split; [assumption |]). assumption.
  - intros pf s' Hctor. rewrite Application_ctor_split in Hctor.
    apply M_bind_Undefined in Hctor as [(u & s & Hstart & Hctor) | Hstart];
      [| exfalso; exact (startup_before_swapchain_defined _ _ Hstart)].
    destruct u.
    destruct (Hstartup pf s Hstart)
      as (phys_dev & r & g & p & Hin & Hphys & Hdev & Hg & Hp & Hsuit & _
          & _ & Hr).
    destruct (initSwapchain_with_selected_format pf s phys_dev Device g p r
                Hphys Hdev Hg Hp Hr) as (Hundef & _ & _).
    exists phys_dev. split; [assumption |]. split; [assumption |]. simpl.
    apply M_bind_Undefined in Hctor as [(u & s6 & Hstep & Hctor) | Hstep];
      [| exact (Hundef _ Hstep)].
    exfalso.
    apply initSwapchain_Ret in Hstep as (phys_dev' & create_info & _ & _ & ->).
    apply M_bind_Undefined in Hctor as [(u' & s7 & Hstep & Hctor) | Hstep].
    + apply initSwapchainImageViews_Ret in Hstep. subst s7.
      apply initGraphicsPipeline_Undefined in Hctor. simpl in Hctor.
      congruence.
    + unfold initSwapchainImageViews in Hstep.
      cbv [mbind M_bind gets] in Hstep.
      apply initSwapchainImageViews_loop_Undefined in Hstep.
      simpl in Hstep. congruence.
Qed.

Lemma chooseSwapSurfaceFormat_defined_at_swapchain_creation_witness :
  exists phys_dev r,
    physical_device_
      (snd (startup_before_swapchain platform_two_gpus initial_state))
    = Some phys_dev
    /\ isDeviceSuitable phys_dev = true
    /\ formats (querySwapchainSupportDetails phys_dev) <> []
    /\ present_modes (querySwapchainSupportDetails phys_dev) <> []
    /\ chooseSwapSurfaceFormat
         (formats (querySwapchainSupportDetails phys_dev)) = Ret r
    /\ fst (initSwapchain platform_two_gpus
              (snd (startup_before_swapchain platform_two_gpus initial_state)))
       = Ret tt.
Proof.
  destruct (proj1 (proj2 (proj2 (proj2 (proj2
              chooseSwapSurfaceFormat_defined_at_swapchain_creation))))
              platform_two_gpus
              (snd (startup_before_swapchain platform_two_gpus initial_state)))
    as (phys_dev & r & Hphys & Hsuit & Hf & Hm & Hr & _ & _ & Hdefined).
  - vm_compute. reflexivity.
  - exists phys_dev, r.
    repeat (split; [assumption |]).
    assert (Hsel : phys_dev = gpu_with_swapchain_extension)
      by (vm_compute in Hphys; injection Hphys as <-; reflexivity).
    rewrite Hsel in Hdefined.
    apply (Hdefined {| width := 800; height := 600 |} 3); reflexivity.
Defined.

(** ** Teardown *)


Lemma list_difference_app_l (l1 l2 k : list object) :
  list_difference (l1 ++ l2) k
  = list_difference l1 k ++ list_difference l2 k.
Proof.
  induction l1 as [| x l1 IH]; simpl; [reflexivity |].
  destruct (decide_rel elem_of x k); simpl; rewrite IH; reflexivity.
Qed.

Lemma list_difference_disjoint (l k : list object) :
  Forall (fun x => x ∉ k) l -> list_difference l k = l.
Proof.
  induction 1 as [| x l Hx _ IH]; simpl; [reflexivity |].
  destruct (decide_rel elem_of x k); [contradiction |].
  rewrite IH. reflexivity.
Qed.

Lemma list_difference_covered (l k : list object) :
  Forall (fun x => x ∈ k) l -> list_difference l k = [].
Proof.
  induction 1 as [| x l Hx _ IH]; simpl; [reflexivity |].
  destruct (decide_rel elem_of x k); [assumption | contradiction].
Qed.

Lemma created_app tr1 tr2 : created (tr1 ++ tr2) = created tr1 ++ created tr2.
Proof. apply omap_app. Qed.

Lemma destroyed_app tr1 tr2 :
  destroyed (tr1 ++ tr2) = destroyed tr1 ++ destroyed tr2.
Proof. apply omap_app. Qed.

Lemma created_view_creations from count :
  created (view_creations from count) = created_views from count.
Proof.
  unfold view_creations, created_views, created.
  induction (seq from count) as [| k l IH]; simpl; [reflexivity |].
  f_equal. exact IH.
Qed.

Lemma destroyed_view_creations from count :
  destroyed (view_creations from count) = [].
Proof.
  unfold view_creations. induction (seq from count) as [| k l IH]; simpl;
    [reflexivity | exact IH].
Qed.

Lemma created_map_Destroy (os : list object) : created (map Destroy os) = [].
Proof. induction os as [| o os IH]; simpl; [reflexivity | exact IH]. Qed.

Lemma destroyed_map_Destroy (os : list object) :
  destroyed (map Destroy os) = os.
Proof.
  unfold destroyed. induction os as [| o os IH]; simpl; [reflexivity |].
  f_equal. exact IH.
Qed.

Lemma elem_of_created_views o from count :
  o ∈ created_views from count -> exists k, o = ImageView k.
Proof.
  unfold created_views. intros Hin. apply list_elem_of_fmap in Hin.
  destruct Hin as (k & -> & _). exists k. reflexivity.
Qed.

Lemma NoDup_created_views from count : NoDup (created_views from count).
Proof.
  unfold created_views. apply NoDup_fmap_2.
  - intros k1 k2 [= ->]. reflexivity.
  - apply NoDup_ListNoDup, List.seq_NoDup.
Qed.

Lemma Application_dtor_run s :
  Application_dtor s
  = (Ret tt,
     set_trace
       (trace s
        ++ map Destroy (swapchain_image_views_ s)
        ++ map Destroy
             (omap id [swapchain_ s; surface_ s; device_ s; instance_ s;
                       window_ s]))
       s).
Proof.
  destruct s as [w i pd d su sw imgs views fmt ext q qs tr ce].
  unfold Application_dtor. cbv [mbind M_bind gets].
  rewrite destroyImageViews_run.
  destruct sw, su, d, i, w;
    cbv [destroy emit modify mret M_ret set_trace trace]; simpl;
    repeat rewrite <- app_assoc; simpl; rewrite ?app_nil_r; reflexivity.
Qed.


(** A complete start-up with three swapchain images: the teardown, and the
    reverse of the creation order, which differs from it in the order of the
    image views and of the surface and the logical device. *)
Example teardown_of_complete_startup :
  fst (Application_lifetime platform_two_gpus) = Ret tt
  /\ destroyed (teardown platform_two_gpus)
     = [ImageView 0; ImageView 1; ImageView 2;
        Swapchain; Surface; Device; Instance; Window]
  /\ rev (live (trace (snd (Application_ctor platform_two_gpus initial_state))))
     = [ImageView 2; ImageView 1; ImageView 0;
        Swapchain; Device; Surface; Instance; Window].
Proof. vm_compute. split; [reflexivity |]. split; reflexivity. Qed.

(** In the earlier revision too the optional indices are dereferenced by
    [initDevice], and a failed [init] skips [cleanup]. *)
Example legacy_run_with_unset_transfer_index :
  fst (Legacy.run platform_no_transfer_bit initial_state)
  = Throw bad_optional_access
  /\ trace (snd (Legacy.run platform_no_transfer_bit initial_state))
     = [Create Window NoInfo; Create Instance NoInfo; Create Surface NoInfo]
  /\ cerr (snd (Legacy.run platform_no_transfer_bit initial_state))
     = ["Could not find a transfer queue for selected device"].
Proof. vm_compute. split; [reflexivity |]. split; reflexivity. Qed.

Example legacy_run_surface_failure :
  fst (Legacy.run platform_surface_fails initial_state)
  = Throw (runtime_error "Failed to create a Vulkan surface")
  /\ trace (snd (Legacy.run platform_surface_fails initial_state))
     = [Create Window NoInfo; Create Instance NoInfo].
Proof. vm_compute. split; reflexivity. Qed.

Example legacy_run_complete :
  fst (Legacy.run platform_two_gpus initial_state) = Ret tt
  /\ destroyed (trace (snd (Legacy.run platform_two_gpus initial_state)))
     = [Swapchain; Surface; Device; Instance]
  /\ live (trace (snd (Legacy.run platform_two_gpus initial_state)))
     = [Window].
Proof. vm_compute. split; [reflexivity |]. split; reflexivity. Qed.

Lemma legacy_run_skips_cleanup_on_failure (pf : Platform) :
  match Legacy.init pf initial_state with
  | (Ret _, s) => Legacy.run pf initial_state = Legacy.cleanup s
  | (Throw e, s) => Legacy.run pf initial_state = (Throw e, s)
  | (Undefined, s) => Legacy.run pf initial_state = (Undefined, s)
  end.
Proof.
  unfold Legacy.run, Legacy.main. cbv [mbind M_bind mret M_ret].
  destruct (Legacy.init pf initial_state) as [[[] | e |] s]; reflexivity.
Qed.


(** * Further properties of the code *)

(** ** The extension set of [isDeviceSuitable] *)

(** X1. For every list of required names and every list of reported names,
    the set left after the erase loop holds exactly the required names that
    the device does not report; order and repetitions in either list do not
    matter. *)
Theorem unsupported_extensions_elements (required reported : list string)
    (name : string) :
  name ∈ unsupported_extensions required reported
  <-> name ∈ required /\ name ∉ reported.
Proof.
  unfold unsupported_extensions. rewrite unsupported_extensions_difference.
  rewrite elem_of_difference, !elem_of_list_to_set. reflexivity.
Qed.

(** ** The event loop *)

Lemma run_loop_after_quit (polls rest : list poll) :
  run_loop false polls = Some rest
  <-> exists mid, polls = mid ++ None :: rest /\ None ∉ mid.
Proof.
  induction polls as [| [event |] polls IH]; simpl.
  - split; [discriminate |]. intros (mid & Heq & _).
    destruct mid; discriminate Heq.
  - assert (Hflag : (if bool_decide (event = SDL_QUIT) then false else false)
                    = false) by (destruct (bool_decide _); reflexivity).
    rewrite Hflag, IH. split.
    + intros (mid & -> & Hmid). exists (Some event :: mid).
      split; [reflexivity |]. intros Hin.
      apply elem_of_cons in Hin as [Hin | Hin];
        [discriminate | contradiction].
    + intros (mid & Heq & Hmid). destruct mid as [| m mid]; [discriminate |].
      injection Heq as <- ->. exists mid. split; [reflexivity |].
      intros Hin. apply Hmid. right. assumption.
  - split.
    + intros [= ->]. exists []. split; [reflexivity |]. apply not_elem_of_nil.
    + intros (mid & Heq & Hmid). destruct mid as [| m mid].
      * injection Heq as ->. reflexivity.
      * injection Heq as <- _. exfalso. apply Hmid. left.
Qed.

(** X2. [run] returns exactly when the answers of [SDL_PollEvent] contain an
    [SDL_QUIT] event followed, later, by an answer "no event pending": it
    returns at the first such answer after the first [SDL_QUIT]. The events
    between the two are taken from the queue and ignored, and an empty queue
    before any [SDL_QUIT] only starts the next round of the outer loop. *)
Theorem Application_run_returns (polls rest : list poll) :
  Application_run polls = Some rest
  <-> exists before after,
        polls = before ++ Some SDL_QUIT :: after ++ None :: rest
        /\ (Some SDL_QUIT ∉ before)
        /\ (None ∉ after).
Proof.
  unfold Application_run.
  induction polls as [| [event |] polls IH]; simpl.
  - split; [discriminate |]. intros (before & after & Heq & _).
    destruct before; discriminate Heq.
  - destruct (bool_decide_reflect (event = SDL_QUIT)) as [-> | Hne].
    + rewrite run_loop_after_quit. split.
      * intros (mid & -> & Hmid). exists [], mid.
        split; [reflexivity |]. split; [apply not_elem_of_nil | assumption].
      * intros (before & after & Heq & Hbefore & Hafter).
        destruct before as [| b before].
        -- injection Heq as ->. exists after. split; [reflexivity | assumption].
        -- injection Heq as <- _. exfalso. apply Hbefore. left.
    + rewrite IH. split.
      * intros (before & after & -> & Hbefore & Hafter).
        exists (Some event :: before), after. split; [reflexivity |].
        split; [| assumption]. intros Hin.
        apply elem_of_cons in Hin as [[= Hin] | Hin];
          [congruence | contradiction].
      * intros (before & after & Heq & Hbefore & Hafter).
        destruct before as [| b before].
        -- injection Heq as ->. contradiction.
        -- injection Heq as <- ->. exists before, after.
           split; [reflexivity |]. split; [| assumption].
           intros Hin. apply Hbefore. right. assumption.
  - rewrite IH. split.
    + intros (before & after & -> & Hbefore & Hafter).
      exists (None :: before), after. split; [reflexivity |].
      split; [| assumption]. intros Hin.
      apply elem_of_cons in Hin as [Hin | Hin];
        [discriminate | contradiction].
    + intros (before & after & Heq & Hbefore & Hafter).
      destruct before as [| b before]; [discriminate |].
      injection Heq as <- ->. exists before, after.
      split; [reflexivity |]. split; [| assumption].
      intros Hin. apply Hbefore. right. assumption.
Qed.

Example Application_run_examples :
  Application_run [Some (SDL_OTHEREVENT 1024); None; Some SDL_QUIT;
                   Some (SDL_OTHEREVENT 768); None; Some SDL_QUIT]
  = Some [Some SDL_QUIT]
  /\ Application_run [Some (SDL_OTHEREVENT 1024); None; None] = None
  /\ Application_run [Some SDL_QUIT; Some (SDL_OTHEREVENT 1024)] = None.
Proof. split; [reflexivity |]. split; reflexivity. Qed.

(** ** Queue family indices *)

Lemma resolved_is_Some_iff (phys_dev : PhysicalDevice) (r : QueueRole) :
  is_Some (resolved r (findQueueFamilies phys_dev))
  <-> some_family_offers phys_dev r.
Proof.
  pose proof (findQueueFamilies_loop_correct phys_dev
                (getQueueFamilyProperties phys_dev) r) as Hcorrect.
  fold (findQueueFamilies phys_dev) in Hcorrect.
  unfold some_family_offers.
  destruct (resolved r (findQueueFamilies phys_dev)) as [i |].
  - destruct Hcorrect as (Hi & (prop & Hlookup & Hoffers) & _).
    split; [| intros _; eexists; reflexivity].
    intros _. exists i, prop. split; [assumption |]. split; assumption.
  - split; [intros [x Hx]; discriminate Hx |].
    intros (i & prop & Hi & Hlookup & Hoffers).
    rewrite (Hcorrect i prop Hi Hlookup) in Hoffers. discriminate Hoffers.
Qed.

(** X3. Every index that the scan resolves is the index of a family of the
    device (at least 0 and below the number of families), and a role is
    resolved exactly when some family of the device offers it. *)
Theorem findQueueFamilies_index_in_range (phys_dev : PhysicalDevice)
    (r : QueueRole) :
  (forall i,
     resolved r (findQueueFamilies phys_dev) = Some i ->
     0 <= i < Z.of_nat (length (getQueueFamilyProperties phys_dev)))
  /\ (is_Some (resolved r (findQueueFamilies phys_dev))
      <-> some_family_offers phys_dev r).
Proof.
  split; [| apply resolved_is_Some_iff].
  intros i Hresolved.
  pose proof (findQueueFamilies_loop_correct phys_dev
                (getQueueFamilyProperties phys_dev) r) as Hcorrect.
  fold (findQueueFamilies phys_dev) in Hcorrect. rewrite Hresolved in Hcorrect.
  destruct Hcorrect as (Hi & (prop & Hlookup & _) & _).
  apply lookup_lt_Some in Hlookup. lia.
Qed.

Lemma findQueueFamilies_index_in_range_witness :
  0 <= 2 < Z.of_nat (length (getQueueFamilyProperties gpu_three_families)).
Proof.
  apply (proj1 (findQueueFamilies_index_in_range gpu_three_families
                  RoleTransfer) 2).
  reflexivity.
Defined.

(** ** The queue family set of [initDevice] *)

Lemma std_set_insert_elem_of (x y : Z) (s : list Z) :
  y ∈ std_set_insert x s <-> y = x \/ y ∈ s.
Proof.
  induction s as [| z s IH]; simpl.
  - rewrite list_elem_of_singleton. split; [intros ->; left; reflexivity |].
    intros [-> | Hin]; [reflexivity | inversion Hin].
  - destruct (Z.ltb_spec x z) as [Hlt | Hge].
    + rewrite elem_of_cons. reflexivity.
    + destruct (Z.eqb_spec x z) as [-> | Hne].
      * rewrite elem_of_cons. tauto.
      * rewrite !elem_of_cons, IH. tauto.
Qed.

Lemma std_set_insert_sorted (x : Z) (s : list Z) :
  StronglySorted Z.lt s -> StronglySorted Z.lt (std_set_insert x s).
Proof.
  induction 1 as [| z s Hsorted IH Hall]; simpl.
  - repeat constructor.
  - destruct (Z.ltb_spec x z) as [Hlt | Hge].
    + constructor; [constructor; assumption |].
      constructor; [assumption |].
      eapply Forall_impl; [exact Hall |]. simpl. intros; lia.
    + destruct (Z.eqb_spec x z) as [-> | Hne];
        [constructor; assumption |].
      constructor; [assumption |].
      apply Forall_forall. intros y Hy.
      apply std_set_insert_elem_of in Hy as [-> | Hy]; [lia |].
      rewrite Forall_forall in Hall. apply Hall. assumption.
Qed.

Lemma std_set_fold (init acc : list Z) :
  StronglySorted Z.lt acc ->
  StronglySorted Z.lt (fold_left (fun s x => std_set_insert x s) init acc)
  /\ forall y,
       y ∈ fold_left (fun s x => std_set_insert x s) init acc
       <-> y ∈ init \/ y ∈ acc.
Proof.
  revert acc. induction init as [| x init IH]; intros acc Hacc; simpl.
  - split; [assumption |]. intros y. split; [right; assumption |].
    intros [Hin | Hin]; [inversion Hin | assumption].
  - destruct (IH (std_set_insert x acc) (std_set_insert_sorted x acc Hacc))
      as [Hsorted Helem].
    split; [assumption |]. intros y.
    rewrite Helem, std_set_insert_elem_of, elem_of_cons. tauto.
Qed.

Lemma std_set_spec (init : list Z) :
  StronglySorted Z.lt (std_set init)
  /\ forall y, y ∈ std_set init <-> y ∈ init.
Proof.
  destruct (std_set_fold init [] (SSorted_nil _)) as [Hsorted Helem].
  split; [assumption |]. intros y. unfold std_set. rewrite Helem.
  split; [intros [Hin | Hin]; [assumption | inversion Hin] | left; assumption].
Qed.

(** ** Outcomes of the start-up steps *)

Lemma M_bind_cases {A B} (m : M A) (k : A -> M B) (s s'' : State)
    (o : outcome B) :
  (m ≫= k) s = (o, s'') ->
  (exists a s', m s = (Ret a, s') /\ k a s' = (o, s''))
  \/ (exists o' : outcome A, m s = (o', s'') /\ failed o' /\ failed o).
Proof.
  unfold mbind, M_bind. destruct (m s) as [[a | e |] s'].
  - intros Hk. left. exists a, s'. split; [reflexivity | assumption].
  - intros [= <- <-]. right. exists (Throw e). repeat split.
  - intros [= <- <-]. right. exists Undefined. repeat split.
Qed.

Lemma find_decompose {A} (f : A -> bool) (pre post : list A) (x : A) :
  Forall (fun y => f y = false) pre -> f x = true ->
  find f (pre ++ x :: post) = Some x.
Proof.
  induction 1 as [| y pre Hy _ IH]; intros Hx; simpl.
  - rewrite Hx. reflexivity.
  - rewrite Hy. apply IH. assumption.
Qed.

(** X4. [initPhysicalDevice] selects the first suitable device of the
    enumeration: with no device at all it throws "Unable to find Vulkan
    compatible device"; with devices none of which is suitable it throws
    "Unable to find Vulkan compatible discrete GPU"; otherwise it stores the
    first device, in enumeration order, that [isDeviceSuitable] accepts. In
    all three cases nothing else in the state changes. *)
Theorem initPhysicalDevice_first_suitable (pf : Platform) (s : State) :
  (enumeratePhysicalDevices pf = [] ->
   initPhysicalDevice pf s
   = (Throw (runtime_error "Unable to find Vulkan compatible device"), s))
  /\ (enumeratePhysicalDevices pf <> [] ->
      Forall (fun d => isDeviceSuitable d = false)
             (enumeratePhysicalDevices pf) ->
      initPhysicalDevice pf s
      = (Throw (runtime_error "Unable to find Vulkan compatible discrete GPU"),
         s))
  /\ (forall before phys_dev after,
        enumeratePhysicalDevices pf = before ++ phys_dev :: after ->
        Forall (fun d => isDeviceSuitable d = false) before ->
        isDeviceSuitable phys_dev = true ->
        initPhysicalDevice pf s
        = (Ret tt, set_physical_device_ (Some phys_dev) s)).
Proof.
  unfold initPhysicalDevice. split; [| split].
  - intros ->. reflexivity.
  - intros Hne Hnone. apply find_is_None in Hnone. rewrite Hnone.
    destruct (enumeratePhysicalDevices pf); [contradiction | reflexivity].
  - intros before phys_dev after -> Hbefore Hsuit.
    rewrite (find_decompose _ _ _ _ Hbefore Hsuit).
    destruct before; reflexivity.
Qed.

Lemma initPhysicalDevice_first_suitable_witness :
  initPhysicalDevice platform_two_gpus initial_state
  = (Ret tt,
     set_physical_device_ (Some gpu_with_swapchain_extension) initial_state)
  /\ initPhysicalDevice (platform_with []) initial_state
     = (Throw (runtime_error "Unable to find Vulkan compatible device"),
        initial_state)
  /\ initPhysicalDevice (platform_with [gpu_without_swapchain_extension])
       initial_state
     = (Throw (runtime_error "Unable to find Vulkan compatible discrete GPU"),
        initial_state).
Proof.
  split; [| split].
  - apply (proj2 (proj2 (initPhysicalDevice_first_suitable platform_two_gpus
                           initial_state))
             [gpu_without_swapchain_extension] gpu_with_swapchain_extension []).
    + reflexivity.
    + constructor; [vm_compute; reflexivity | constructor].
    + vm_compute. reflexivity.
  - apply (proj1 (initPhysicalDevice_first_suitable (platform_with [])
                    initial_state)).
    reflexivity.
  - apply (proj1 (proj2 (initPhysicalDevice_first_suitable
                           (platform_with [gpu_without_swapchain_extension])
                           initial_state))).
    + discriminate.
    + constructor; [vm_compute; reflexivity | constructor].
Defined.

Lemma legacy_initPhysicalDevice_loop_run (physical_devices : list PhysicalDevice)
    (s : State) :
  Legacy.initPhysicalDevice_loop physical_devices s
  = (Ret tt,
     match find isDeviceSuitable physical_devices with
     | Some phys_dev => set_physical_device_ (Some phys_dev) s
     | None => s
     end).
Proof.
  induction physical_devices as [| d rest IH]; simpl; [reflexivity |].
  destruct (isDeviceSuitable d); [reflexivity | exact IH].
Qed.

Lemma legacy_initPhysicalDevice_agrees (pf : Platform) (s : State) :
  physical_device_ s = None ->
  Legacy.initPhysicalDevice pf s = initPhysicalDevice pf s.
Proof.
  intros Hnull. unfold Legacy.initPhysicalDevice, initPhysicalDevice.
  destruct (length (enumeratePhysicalDevices pf) =? 0)%nat; [reflexivity |].
  cbv [mbind M_bind gets]. rewrite legacy_initPhysicalDevice_loop_run.
  destruct (find isDeviceSuitable (enumeratePhysicalDevices pf)); simpl.
  - reflexivity.
  - rewrite Hnull. reflexivity.
Qed.

(** X5. The two revisions of [initPhysicalDevice] (a loop with [break] and a
    null check in the earlier one, [std::find_if] in the later one) have the
    same outcome and the same final state whenever no device is selected yet.
    When a device is already selected, the earlier revision does not throw
    for a non-empty enumeration without a suitable device: it keeps the
    earlier selection. *)
Theorem legacy_initPhysicalDevice_same_selection (pf : Platform) (s : State) :
  (physical_device_ s = None ->
   Legacy.initPhysicalDevice pf s = initPhysicalDevice pf s)
  /\ (forall selected,
        physical_device_ s = Some selected ->
        enumeratePhysicalDevices pf <> [] ->
        Forall (fun d => isDeviceSuitable d = false)
               (enumeratePhysicalDevices pf) ->
        Legacy.initPhysicalDevice pf s = (Ret tt, s)).
Proof.
  split; [apply legacy_initPhysicalDevice_agrees |].
  intros selected Hsel Hne Hnone. unfold Legacy.initPhysicalDevice.
  destruct (length (enumeratePhysicalDevices pf) =? 0)%nat eqn:Hlen.
  - apply Nat.eqb_eq in Hlen.
    destruct (enumeratePhysicalDevices pf); [contradiction | discriminate].
  - cbv [mbind M_bind gets]. rewrite legacy_initPhysicalDevice_loop_run.
    apply find_is_None in Hnone. rewrite Hnone. rewrite Hsel. reflexivity.
Qed.

Lemma legacy_initPhysicalDevice_same_selection_witness :
  Legacy.initPhysicalDevice platform_two_gpus initial_state
  = initPhysicalDevice platform_two_gpus initial_state
  /\ Legacy.initPhysicalDevice (platform_with [gpu_without_swapchain_extension])
       (set_physical_device_ (Some gpu_with_swapchain_extension) initial_state)
     = (Ret tt,
        set_physical_device_ (Some gpu_with_swapchain_extension) initial_state).
Proof.
  split.
  - apply (proj1 (legacy_initPhysicalDevice_same_selection platform_two_gpus
                    initial_state)).
    reflexivity.
  - apply (proj2 (legacy_initPhysicalDevice_same_selection
                    (platform_with [gpu_without_swapchain_extension])
                    (set_physical_device_ (Some gpu_with_swapchain_extension)
                       initial_state))
             gpu_with_swapchain_extension).
    + reflexivity.
    + discriminate.
    + constructor; [vm_compute; reflexivity | constructor].
Defined.

(** The lines [initQueueFamilies] writes for the optional roles. *)
Lemma optional_role_lines_elem (q : QueueFamilyIndices) :
  let lines :=
    match transfer q with
    | Some _ => []
    | None => ["Could not find a transfer queue for selected device"]
    end
    ++ match compute q with
       | Some _ => []
       | None => ["Could not find a compute queue for selected device"]
       end in
  ("Could not find a transfer queue for selected device" ∈ lines
   <-> transfer q = None)
  /\ ("Could not find a compute queue for selected device" ∈ lines
      <-> compute q = None).
Proof.
  destruct (transfer q), (compute q); simpl; (split; split); intros Hin;
    try discriminate Hin; try reflexivity;
    try (repeat constructor; fail);
    exfalso;
    repeat (apply elem_of_cons in Hin as [Hin | Hin]; [discriminate Hin |]);
    inversion Hin.
Qed.

(** X6. With a device selected, [initQueueFamilies] stores the scanned
    indices in every case and then: throws "Could not find a graphics queue"
    when no family offers graphics; throws "Could not find a present queue"
    when graphics is offered and no family supports the surface; otherwise
    returns normally, writing one line to [std::cerr] for transfer when no
    family offers transfer and then one for compute when no family offers
    compute, and nothing else. No object is created. *)
Theorem initQueueFamilies_outcome (s : State) (phys_dev : PhysicalDevice) :
  physical_device_ s = Some phys_dev ->
  let found := set_queue_family_indices_ (findQueueFamilies phys_dev) s in
  (~ some_family_offers phys_dev RoleGraphics ->
   initQueueFamilies s
   = (Throw (runtime_error
               "Could not find a graphics queue for selected device"), found))
  /\ (some_family_offers phys_dev RoleGraphics ->
      ~ some_family_offers phys_dev RolePresent ->
      initQueueFamilies s
      = (Throw (runtime_error
                  "Could not find a present queue for selected device"),
         found))
  /\ (some_family_offers phys_dev RoleGraphics ->
      some_family_offers phys_dev RolePresent ->
      exists lines,
        initQueueFamilies s = (Ret tt, set_cerr (cerr s ++ lines) found)
        /\ lines
           = match transfer (findQueueFamilies phys_dev) with
             | Some _ => []
             | None => ["Could not find a transfer queue for selected device"]
             end
             ++ match compute (findQueueFamilies phys_dev) with
                | Some _ => []
                | None =>
                    ["Could not find a compute queue for selected device"]
                end
        /\ ("Could not find a transfer queue for selected device" ∈ lines
            <-> ~ some_family_offers phys_dev RoleTransfer)
        /\ ("Could not find a compute queue for selected device" ∈ lines
            <-> ~ some_family_offers phys_dev RoleCompute)).
Proof.
  intros Hdev found.
  pose proof (resolved_is_Some_iff phys_dev RoleGraphics) as Hg.
  pose proof (resolved_is_Some_iff phys_dev RolePresent) as Hp.
  pose proof (resolved_is_Some_iff phys_dev RoleTransfer) as Ht.
  pose proof (resolved_is_Some_iff phys_dev RoleCompute) as Hc.
  simpl in Hg, Hp, Ht, Hc.
  assert (Hrun : forall o st,
            (let q := findQueueFamilies phys_dev in
             if negb (bool_decide (is_Some (graphics q))) then
               (Throw (runtime_error
                  "Could not find a graphics queue for selected device"), found)
             else if negb (bool_decide (is_Some (present q))) then
               (Throw (runtime_error
                  "Could not find a present queue for selected device"), found)
             else
               (Ret tt,
                set_cerr
                  (cerr s
                   ++ match transfer q with
                      | Some _ => []
                      | None =>
                          ["Could not find a transfer queue for selected device"]
                      end
                   ++ match compute q with
                      | Some _ => []
                      | None =>
                          ["Could not find a compute queue for selected device"]
                      end) found)) = (o, st) ->
            initQueueFamilies s = (o, st)).
  { intros o st. unfold initQueueFamilies, found.
    cbv [mbind M_bind deref gets modify throw lift print_cerr mret M_ret].
    rewrite Hdev. simpl.
    destruct (bool_decide (is_Some (graphics (findQueueFamilies phys_dev))));
      simpl; [| intros <-; reflexivity].
    destruct (bool_decide (is_Some (present (findQueueFamilies phys_dev))));
      simpl; [| intros <-; reflexivity].
    destruct (transfer (findQueueFamilies phys_dev)) as [t |],
             (compute (findQueueFamilies phys_dev)) as [c |]; simpl;
      intros <-; rewrite ?app_nil_r, <- ?app_assoc; reflexivity. }
  split; [| split].
  - intros Hnog. apply Hrun. cbv zeta.
    rewrite bool_decide_eq_false_2 by (rewrite Hg; assumption). reflexivity.
  - intros Hyesg Hnop. apply Hrun. cbv zeta.
    rewrite bool_decide_eq_true_2 by (rewrite Hg; assumption).
    rewrite bool_decide_eq_false_2 by (rewrite Hp; assumption). reflexivity.
  - intros Hyesg Hyesp. eexists. split; [| split; [reflexivity |]].
    + apply Hrun. cbv zeta.
      rewrite bool_decide_eq_true_2 by (rewrite Hg; assumption).
      rewrite bool_decide_eq_true_2 by (rewrite Hp; assumption). reflexivity.
    + destruct (optional_role_lines_elem (findQueueFamilies phys_dev))
        as [Htl Hcl].
      cbv zeta in Htl, Hcl. rewrite Htl, Hcl, <- Ht, <- Hc.
      rewrite <- !eq_None_not_Some. split; reflexivity.
Qed.

Lemma initQueueFamilies_outcome_witness :
  exists lines,
    initQueueFamilies
      (set_physical_device_ (Some gpu_no_transfer_bit) initial_state)
    = (Ret tt,
       set_cerr (cerr initial_state ++ lines)
         (set_queue_family_indices_ (findQueueFamilies gpu_no_transfer_bit)
            (set_physical_device_ (Some gpu_no_transfer_bit) initial_state)))
    /\ "Could not find a transfer queue for selected device" ∈ lines.
Proof.
  destruct (proj2 (proj2 (initQueueFamilies_outcome
                            (set_physical_device_ (Some gpu_no_transfer_bit)
                               initial_state)
                            gpu_no_transfer_bit eq_refl)))
    as (lines & Hrun & Hlines & _).
  - exists 0, {| queueFlags := 3 |}.
    split; [lia |]. split; reflexivity.
  - exists 0, {| queueFlags := 3 |}.
    split; [lia |]. split; reflexivity.
  - exists lines. split; [exact Hrun |]. rewrite Hlines. left.
Defined.

(** X7. For every input list, the [std::set] built from it is strictly
    ascending (so free of repetitions) and holds exactly the elements of the
    list. Hence, when [initDevice] returns, the logical device was created
    with one queue request per distinct family among the four resolved
    indices, in ascending order of family index. *)
Theorem initDevice_queue_family_set (s s' : State) :
  (forall init,
     StronglySorted Z.lt (std_set init)
     /\ forall y, y ∈ std_set init <-> y ∈ init)
  /\ (initDevice s = (Ret tt, s') ->
      exists g t c p queue_families,
        queue_family_indices_ s
        = {| graphics := Some g; transfer := Some t; compute := Some c;
             present := Some p |}
        /\ trace s'
           = trace s ++ [Create Device (DeviceQueues queue_families)]
        /\ StronglySorted Z.lt queue_families
        /\ forall y, y ∈ queue_families <-> y ∈ [g; t; c; p]).
Proof.
  split; [apply std_set_spec |].
  intros Hrun.
  apply initDevice_Ret in Hrun as (g & t & c & p & phys_dev & Hq & _ & ->).
  exists g, t, c, p, (std_set [g; t; c; p]).
  split; [assumption |]. split; [reflexivity |]. apply std_set_spec.
Qed.

Lemma initDevice_queue_family_set_witness :
  exists queue_families,
    StronglySorted Z.lt queue_families
    /\ forall y, y ∈ queue_families <-> y ∈ [1; 2; 1; 1].
Proof.
  destruct (proj2 (initDevice_queue_family_set
                     (set_queue_family_indices_
                        {| graphics := Some 1; transfer := Some 2;
                           compute := Some 1; present := Some 1 |}
                        (set_physical_device_
                           (Some gpu_with_swapchain_extension) initial_state))
                     _) eq_refl)
    as (g & t & c & p & fams & Hq & _ & Hsorted & Helem).
  injection Hq as <- <- <- <-.
  exists fams. split; assumption.
Defined.

Example std_set_examples :
  std_set [1; 2; 1; 1] = [1; 2]
  /\ std_set [3; 0; 2; 0] = [0; 2; 3]
  /\ std_set [0; 0; 0; 0] = [0].
Proof. split; [reflexivity |]. split; reflexivity. Qed.

(** X8. [initDevice] returns normally exactly when all four indices
    (graphics, transfer, compute and present) are set and the device can be
    created. When one of the four is unset it throws
    [std::bad_optional_access], and when the creation fails it throws the
    error of the creation call; in both cases no device is created and the
    state is unchanged. *)
Theorem initDevice_returns_iff (s : State) (phys_dev : PhysicalDevice) :
  physical_device_ s = Some phys_dev ->
  ((exists s', initDevice s = (Ret tt, s'))
   <-> (forall r, is_Some (resolved r (queue_family_indices_ s)))
       /\ createDevice_succeeds phys_dev = true)
  /\ ((exists r, resolved r (queue_family_indices_ s) = None) ->
      initDevice s = (Throw bad_optional_access, s))
  /\ ((forall r, is_Some (resolved r (queue_family_indices_ s))) ->
      createDevice_succeeds phys_dev = false ->
      initDevice s
      = (Throw (SystemError "vk::PhysicalDevice::createDevice"), s)).
Proof.
  intros Hdev.
  assert (Hunset : (exists r, resolved r (queue_family_indices_ s) = None) ->
                   initDevice s = (Throw bad_optional_access, s)).
  { intros [r Hr]. unfold initDevice. cbv [mbind M_bind gets lift].
    destruct (queue_family_indices_ s) as [[g |] [t |] [c |] [p |]];
      try reflexivity.
    destruct r; discriminate Hr. }
  assert (Hfail : (forall r, is_Some (resolved r (queue_family_indices_ s))) ->
                  createDevice_succeeds phys_dev = false ->
                  initDevice s
                  = (Throw (SystemError "vk::PhysicalDevice::createDevice"), s)).
  { intros Hall Hcreate. unfold initDevice.
    cbv [mbind M_bind gets lift deref modify emit throw].
    pose proof (Hall RoleGraphics) as [g Hg].
    pose proof (Hall RoleTransfer) as [t Ht].
    pose proof (Hall RoleCompute) as [c Hc].
    pose proof (Hall RolePresent) as [p Hp].
    simpl in Hg, Ht, Hc, Hp. rewrite Hg, Ht, Hc, Hp. simpl.
    rewrite Hdev. simpl. rewrite Hcreate. reflexivity. }
  split; [| split; assumption].
  split.
  - intros [s' Hrun]. pose proof Hrun as Hrun'.
    apply initDevice_Ret in Hrun' as (g & t & c & p & _ & Hq & _ & _).
    assert (Hall : forall r, is_Some (resolved r (queue_family_indices_ s)))
      by (rewrite Hq; intros []; simpl; eexists; reflexivity).
    split; [exact Hall |].
    destruct (createDevice_succeeds phys_dev) eqn:Hcreate; [reflexivity |].
    rewrite (Hfail Hall eq_refl) in Hrun. discriminate Hrun.
  - intros [Hall Hcreate]. unfold initDevice.
    cbv [mbind M_bind gets lift deref modify emit throw].
    pose proof (Hall RoleGraphics) as [g Hg].
    pose proof (Hall RoleTransfer) as [t Ht].
    pose proof (Hall RoleCompute) as [c Hc].
    pose proof (Hall RolePresent) as [p Hp].
    simpl in Hg, Ht, Hc, Hp. rewrite Hg, Ht, Hc, Hp. simpl.
    rewrite Hdev. simpl. rewrite Hcreate. simpl. eexists. reflexivity.
Qed.

Lemma initDevice_returns_iff_witness :
  (exists s',
     initDevice
       (set_queue_family_indices_
          (findQueueFamilies gpu_with_swapchain_extension)
          (set_physical_device_ (Some gpu_with_swapchain_extension)
             initial_state)) = (Ret tt, s'))
  /\ initDevice
       (set_queue_family_indices_ (findQueueFamilies gpu_no_transfer_bit)
          (set_physical_device_ (Some gpu_no_transfer_bit) initial_state))
     = (Throw bad_optional_access,
        set_queue_family_indices_ (findQueueFamilies gpu_no_transfer_bit)
          (set_physical_device_ (Some gpu_no_transfer_bit) initial_state)).
Proof.
  split.
  - apply (proj1 (initDevice_returns_iff
                    (set_queue_family_indices_
                       (findQueueFamilies gpu_with_swapchain_extension)
                       (set_physical_device_
                          (Some gpu_with_swapchain_extension) initial_state))
                    gpu_with_swapchain_extension eq_refl)).
    split; [| reflexivity].
    intros []; vm_compute; eexists; reflexivity.
  - apply (proj1 (proj2 (initDevice_returns_iff
                    (set_queue_family_indices_
                       (findQueueFamilies gpu_no_transfer_bit)
                       (set_physical_device_ (Some gpu_no_transfer_bit)
                          initial_state))
                    gpu_no_transfer_bit eq_refl))).
    exists RoleTransfer. reflexivity.
Defined.

(** ** The swapchain descriptor *)

Lemma chooseSwapPresentMode_offered_or_fifo (present_modes : list PresentModeKHR) :
  chooseSwapPresentMode present_modes ∈ present_modes
  \/ chooseSwapPresentMode present_modes = eFifo.
Proof.
  induction present_modes as [| m rest IH]; simpl; [right; reflexivity |].
  destruct (bool_decide (m = eMailbox)); [left; left |].
  destruct IH as [Hin | Heq]; [left; right; assumption | right; assumption].
Qed.

Lemma chooseSwapExtent_defined (caps : SurfaceCapabilitiesKHR) :
  width (minImageExtent caps) <= width (maxImageExtent caps) ->
  height (minImageExtent caps) <= height (maxImageExtent caps) ->
  exists extent,
    chooseSwapExtent caps = Ret extent
    /\ (extent = currentExtent caps
        \/ (width (minImageExtent caps) <= width extent
            <= width (maxImageExtent caps)
            /\ height (minImageExtent caps) <= height extent
               <= height (maxImageExtent caps))).
Proof.
  intros Hw Hh. unfold chooseSwapExtent.
  destruct (negb _ && negb _); [eexists; split; [reflexivity | left; reflexivity] |].
  rewrite (clamp_in_range _ _ _ Hw), (clamp_in_range _ _ _ Hh). simpl.
  eexists. split; [reflexivity |]. right. simpl. lia.
Qed.

Lemma initSwapchain_image_count_defined (caps : SurfaceCapabilitiesKHR) :
  is_u32 (minImageCount caps) -> is_u32 (maxImageCount caps) ->
  minImageCount caps < UINT32_MAX ->
  maxImageCount caps = 0 \/ minImageCount caps <= maxImageCount caps ->
  exists image_count,
    initSwapchain_image_count caps = Ret image_count
    /\ minImageCount caps <= image_count <= minImageCount caps + 1
    /\ (maxImageCount caps <> 0 -> image_count <= maxImageCount caps).
Proof.
  unfold is_u32, UINT32_MAX, initSwapchain_image_count, u32.
  intros Hmin Hmax Hlt Hbound.
  rewrite Z.mod_small by lia.
  destruct (Z.ltb_spec 0 (maxImageCount caps)) as [Hpos | Hzero].
  - destruct Hbound as [Hz | Hle]; [lia |].
    rewrite (clamp_in_range _ _ _ Hle). eexists. split; [reflexivity |]. lia.
  - eexists. split; [reflexivity |]. lia.
Qed.

(** X9. For a device that offers at least one surface format, a snapshot
    whose minimum extent does not exceed its maximum extent and whose image
    counts are [uint32_t] values with [minImageCount] below the largest one
    and [maxImageCount] zero or at least [minImageCount], and resolved
    graphics and present indices, [initSwapchain] builds a descriptor, and in
    it: the format and color space are one of the offered pairs; the present
    mode is one of the offered modes or FIFO; the image count is at least
    [minImageCount], at most [minImageCount + 1], and at most [maxImageCount]
    when that is not zero; the extent is the current extent or lies between
    the minimum and the maximum extent; the number of array layers is 1, the
    transform is the current transform, and clipping is on. *)
Theorem initSwapchain_create_info_valid
    (swapchain_support : SwapchainSupportDetails) (q : QueueFamilyIndices)
    (g p : Z) :
  let caps := capabilities swapchain_support in
  formats swapchain_support <> [] ->
  width (minImageExtent caps) <= width (maxImageExtent caps) ->
  height (minImageExtent caps) <= height (maxImageExtent caps) ->
  is_u32 (minImageCount caps) -> is_u32 (maxImageCount caps) ->
  minImageCount caps < UINT32_MAX ->
  maxImageCount caps = 0 \/ minImageCount caps <= maxImageCount caps ->
  graphics q = Some g -> present q = Some p ->
  exists create_info,
    initSwapchain_create_info swapchain_support q = Ret create_info
    /\ {| format := ci_imageFormat create_info;
          colorSpace := ci_imageColorSpace create_info |}
       ∈ formats swapchain_support
    /\ (ci_presentMode create_info ∈ present_modes swapchain_support
        \/ ci_presentMode create_info = eFifo)
    /\ minImageCount caps <= ci_minImageCount create_info
       <= minImageCount caps + 1
    /\ (maxImageCount caps <> 0 ->
        ci_minImageCount create_info <= maxImageCount caps)
    /\ (ci_imageExtent create_info = currentExtent caps
        \/ (width (minImageExtent caps) <= width (ci_imageExtent create_info)
            <= width (maxImageExtent caps)
            /\ height (minImageExtent caps)
               <= height (ci_imageExtent create_info)
               <= height (maxImageExtent caps)))
    /\ ci_imageArrayLayers create_info = 1
    /\ ci_preTransform create_info = currentTransform caps
    /\ ci_clipped create_info = VK_TRUE.
Proof.
  intros caps Hformats Hw Hh Hmin Hmax Hlt Hbound Hg Hp.
  unfold initSwapchain_create_info.
  destruct (formats swapchain_support) as [| first rest] eqn:Hfmt;
    [contradiction |].
  destruct (chooseSwapSurfaceFormat_nonempty first rest)
    as (surface_format & Hformat & Hoffered).
  destruct (chooseSwapExtent_defined caps Hw Hh) as (extent & Hextent & Hext).
  destruct (initSwapchain_image_count_defined caps Hmin Hmax Hlt Hbound)
    as (image_count & Hcount & Hrange & Hupper).
  fold caps. rewrite Hformat, Hextent, Hcount. simpl.
  unfold initSwapchain_sharing. rewrite Hg, Hp. simpl.
  destruct (negb (g =? p)); simpl; eexists; (split; [reflexivity |]); simpl;
    (split; [destruct surface_format; exact Hoffered |]);
    (split; [apply chooseSwapPresentMode_offered_or_fifo |]);
    (split; [exact Hrange |]); (split; [exact Hupper |]);
    (split; [exact Hext |]); repeat split.
Qed.

Lemma initSwapchain_create_info_valid_witness :
  exists create_info,
    initSwapchain_create_info
      (querySwapchainSupportDetails gpu_with_swapchain_extension)
      (findQueueFamilies gpu_with_swapchain_extension) = Ret create_info
    /\ 2 <= ci_minImageCount create_info <= 3.
Proof.
  destruct (initSwapchain_create_info_valid
              (querySwapchainSupportDetails gpu_with_swapchain_extension)
              (findQueueFamilies gpu_with_swapchain_extension) 0 0)
    as (create_info & Hrun & _ & _ & Hcount & _).
  - discriminate.
  - simpl. lia.
  - simpl. lia.
  - vm_compute. split; discriminate.
  - vm_compute. split; discriminate.
  - reflexivity.
  - left. reflexivity.
  - reflexivity.
  - reflexivity.
  - exists create_info. split; [exact Hrun | exact Hcount].
Defined.

(** ** Image views and shader modules *)

Lemma with_views_step (s : State) (count : nat) :
  with_views count
    (set_swapchain_image_views_
       (swapchain_image_views_ s
        ++ [ImageView (length (swapchain_image_views_ s))])
       (set_trace
          (trace s
           ++ [Create (ImageView (length (swapchain_image_views_ s))) NoInfo])
          s))
  = with_views (S count) s.
Proof.
  unfold with_views, created_views, view_creations. simpl.
  rewrite length_app, Nat.add_1_r. simpl.
  rewrite <- !app_assoc. reflexivity.
Qed.

Lemma with_views_zero (s : State) : with_views 0 s = s.
Proof.
  unfold with_views, created_views, view_creations. simpl.
  rewrite !app_nil_r. destruct s; reflexivity.
Qed.

Lemma initSwapchainImageViews_loop_outcome (pf : Platform)
    (images : list Image) :
  forall (s : State) (dev : object),
    device_ s = Some dev ->
    let from := length (swapchain_image_views_ s) in
    ((forall j, (j < length images)%nat ->
                createImageView_succeeds pf (from + j) = true) ->
     initSwapchainImageViews_loop pf images s
     = (Ret tt, with_views (length images) s))
    /\ (forall k,
          (k < length images)%nat ->
          (forall j, (j < k)%nat ->
                     createImageView_succeeds pf (from + j) = true) ->
          createImageView_succeeds pf (from + k) = false ->
          initSwapchainImageViews_loop pf images s
          = (Throw (SystemError "vk::Device::createImageView"),
             with_views k s)).
Proof.
  induction images as [| image images IH]; intros s dev Hdev; cbv zeta;
    simpl.
  - split; [intros _; rewrite with_views_zero; reflexivity |].
    intros k Hk. lia.
  - cbv [mbind M_bind gets deref modify emit throw lift]. rewrite Hdev. simpl.
    set (from := length (swapchain_image_views_ s)).
    pose (s1 := set_swapchain_image_views_
                  (swapchain_image_views_ s ++ [ImageView from])
                  (set_trace (trace s ++ [Create (ImageView from) NoInfo]) s)).
    assert (Hdev1 : device_ s1 = Some dev) by exact Hdev.
    assert (Hfrom1 : length (swapchain_image_views_ s1) = S from)
      by (unfold s1; simpl; rewrite length_app; simpl; unfold from; lia).
    destruct (IH s1 dev Hdev1) as [IHok IHfail]. rewrite Hfrom1 in IHok, IHfail.
    assert (Hstep : forall count, with_views count s1 = with_views (S count) s)
      by (intros count; apply with_views_step).
    split.
    + intros Hall. pose proof (Hall 0%nat ltac:(lia)) as Hfirst.
      rewrite Nat.add_0_r in Hfirst. rewrite Hfirst. simpl.
      rewrite <- Hstep. apply IHok. intros j Hj.
      replace (S from + j)%nat with (from + S j)%nat by lia.
      apply Hall. lia.
    + intros [| k] Hk Hbefore Hfail.
      * rewrite Nat.add_0_r in Hfail. rewrite Hfail. simpl.
        rewrite with_views_zero. reflexivity.
      * pose proof (Hbefore 0%nat ltac:(lia)) as Hfirst.
        rewrite Nat.add_0_r in Hfirst. rewrite Hfirst. simpl.
        rewrite <- Hstep. apply IHfail; [lia | |].
        -- intros j Hj.
           replace (S from + j)%nat with (from + S j)%nat by lia.
           apply Hbefore. lia.
        -- replace (S from + k)%nat with (from + S k)%nat by lia.
           assumption.
Qed.

(** X10. With a logical device and no view stored yet,
    [initSwapchainImageViews] makes one creation call per swapchain image, in
    image order. When every call succeeds it returns with one view per image
    stored in creation order. When the call for image [k] is the first to
    fail it throws the error of that call, and the [k] views created before
    it stay stored and are not destroyed. *)
Theorem initSwapchainImageViews_outcome (pf : Platform) (s : State)
    (dev : object) :
  device_ s = Some dev ->
  swapchain_image_views_ s = [] ->
  let count := length (swapchain_images_ s) in
  ((forall j, (j < count)%nat -> createImageView_succeeds pf j = true) ->
   exists s',
     initSwapchainImageViews pf s = (Ret tt, s')
     /\ swapchain_image_views_ s' = created_views 0 count
     /\ trace s' = trace s ++ view_creations 0 count)
  /\ (forall k,
        (k < count)%nat ->
        (forall j, (j < k)%nat -> createImageView_succeeds pf j = true) ->
        createImageView_succeeds pf k = false ->
        exists s',
          initSwapchainImageViews pf s
          = (Throw (SystemError "vk::Device::createImageView"), s')
          /\ swapchain_image_views_ s' = created_views 0 k
          /\ trace s' = trace s ++ view_creations 0 k
          /\ destroyed (view_creations 0 k) = []).
Proof.
  intros Hdev Hviews count.
  destruct (initSwapchainImageViews_loop_outcome pf (swapchain_images_ s)
              s dev Hdev) as [Hok Hfail].
  rewrite Hviews in Hok, Hfail. simpl in Hok, Hfail.
  unfold initSwapchainImageViews. cbv [mbind M_bind gets]. split.
  - intros Hall. rewrite (Hok Hall). eexists. split; [reflexivity |].
    unfold with_views. rewrite Hviews. simpl. split; reflexivity.
  - intros k Hk Hbefore Hcall. rewrite (Hfail k Hk Hbefore Hcall).
    eexists. split; [reflexivity |].
    unfold with_views. rewrite Hviews. simpl.
    split; [reflexivity |]. split; [reflexivity |].
    apply destroyed_view_creations.
Qed.

Lemma initSwapchainImageViews_outcome_witness :
  exists s',
    initSwapchainImageViews platform_second_view_fails
      (set_swapchain_images_ [0; 1; 2]%nat
         (set_device_ (Some Device) initial_state))
    = (Throw (SystemError "vk::Device::createImageView"), s')
    /\ swapchain_image_views_ s' = [ImageView 0].
Proof.
  destruct (proj2 (initSwapchainImageViews_outcome platform_second_view_fails
                     (set_swapchain_images_ [0; 1; 2]%nat
                        (set_device_ (Some Device) initial_state))
                     Device eq_refl eq_refl) 1%nat)
    as (s' & Hrun & Hviews & _).
  - simpl. lia.
  - intros j Hj. assert (j = 0%nat) as -> by lia. reflexivity.
  - reflexivity.
  - exists s'. split; [exact Hrun | exact Hviews].
Defined.

(** A file is read when it opens and the vector for its bytes can be
    constructed. *)
Lemma readFile_outcome (pf : Platform) (file_name : string) (s : State) :
  readFile pf file_name s
  = (if file_opens pf file_name then
       if file_data_allocates pf file_name then Ret tt
       else Throw allocation_failure
     else Throw (runtime_error "Failed to open file"),
     s).
Proof.
  unfold readFile. destruct (file_opens pf file_name); [| reflexivity].
  destruct (file_data_allocates pf file_name); reflexivity.
Qed.

(** X11. With a logical device, [initGraphicsPipeline] reads the vertex
    shader file and then the fragment shader file before it creates anything.
    [readFile] throws "Failed to open file" when the file does not open, and
    the exception of the [std::vector] constructor when the file opens but
    the vector sized from its [tellg()] cannot be constructed; in both cases,
    for either file, the state is unchanged and nothing is created, and a
    failure on the vertex file comes before any look at the fragment file.
    With both files read: when the vertex module cannot be created nothing is
    created; when the fragment module cannot be created the vertex module has
    been created and is not destroyed; when everything succeeds both modules
    are created and then destroyed, fragment module first, and no data member
    changes. *)
Theorem initGraphicsPipeline_outcome (pf : Platform) (s : State)
    (dev : object) :
  device_ s = Some dev ->
  let read file_name :=
    file_opens pf file_name = true
    /\ file_data_allocates pf file_name = true in
  (file_opens pf "vert.spv" = false ->
   initGraphicsPipeline pf s
   = (Throw (runtime_error "Failed to open file"), s))
  /\ (file_opens pf "vert.spv" = true ->
      file_data_allocates pf "vert.spv" = false ->
      initGraphicsPipeline pf s = (Throw allocation_failure, s))
  /\ (read "vert.spv" -> file_opens pf "frag.spv" = false ->
      initGraphicsPipeline pf s
      = (Throw (runtime_error "Failed to open file"), s))
  /\ (read "vert.spv" -> file_opens pf "frag.spv" = true ->
      file_data_allocates pf "frag.spv" = false ->
      initGraphicsPipeline pf s = (Throw allocation_failure, s))
  /\ (read "vert.spv" -> read "frag.spv" ->
      createShaderModule_succeeds pf "vert.spv" = false ->
      initGraphicsPipeline pf s
      = (Throw (SystemError "vk::Device::createShaderModule"), s))
  /\ (read "vert.spv" -> read "frag.spv" ->
      createShaderModule_succeeds pf "vert.spv" = true ->
      createShaderModule_succeeds pf "frag.spv" = false ->
      initGraphicsPipeline pf s
      = (Throw (SystemError "vk::Device::createShaderModule"),
         set_trace (trace s ++ [Create (ShaderModule "vert.spv") NoInfo]) s))
  /\ (read "vert.spv" -> read "frag.spv" ->
      createShaderModule_succeeds pf "vert.spv" = true ->
      createShaderModule_succeeds pf "frag.spv" = true ->
      initGraphicsPipeline pf s
      = (Ret tt,
         set_trace
           (trace s
            ++ [Create (ShaderModule "vert.spv") NoInfo;
                Create (ShaderModule "frag.spv") NoInfo;
                Destroy (ShaderModule "frag.spv");
                Destroy (ShaderModule "vert.spv")]) s)).
Proof.
  intros Hdev read.
  unfold initGraphicsPipeline, createShaderModule.
  cbv [mbind M_bind]. rewrite !readFile_outcome.
  cbv [gets deref modify emit throw lift mret M_ret].
  repeat split.
  - intros ->. reflexivity.
  - intros -> ->. reflexivity.
  - intros [-> ->] ->. reflexivity.
  - intros [-> ->] -> ->. reflexivity.
  - intros [-> ->] [-> ->] Hmod. rewrite Hdev, Hmod. reflexivity.
  - intros [-> ->] [-> ->] Hvert Hfrag. rewrite Hdev, Hvert. simpl.
    rewrite Hdev, Hfrag. reflexivity.
  - intros [-> ->] [-> ->] Hvert Hfrag. rewrite Hdev, Hvert. simpl.
    rewrite Hdev, Hfrag. simpl. rewrite <- !app_assoc. reflexivity.
Qed.

Lemma initGraphicsPipeline_outcome_witness :
  initGraphicsPipeline platform_frag_module_fails
    (set_device_ (Some Device) initial_state)
  = (Throw (SystemError "vk::Device::createShaderModule"),
     set_trace [Create (ShaderModule "vert.spv") NoInfo]
       (set_device_ (Some Device) initial_state))
  /\ initGraphicsPipeline platform_vert_unsizable
       (set_device_ (Some Device) initial_state)
     = (Throw allocation_failure, set_device_ (Some Device) initial_state).
Proof.
  split.
  - apply (proj1 (proj2 (proj2 (proj2 (proj2 (proj2
             (initGraphicsPipeline_outcome platform_frag_module_fails
                (set_device_ (Some Device) initial_state)
                Device eq_refl)))))));
      try (split; reflexivity); reflexivity.
  - apply (proj1 (proj2 (initGraphicsPipeline_outcome platform_vert_unsizable
                           (set_device_ (Some Device) initial_state)
                           Device eq_refl)));
      reflexivity.
Defined.

(** ** The order of creation *)

Lemma initSDL_failed pf s s' (o : outcome unit) :
  initSDL pf s = (o, s') -> failed o -> trace s' = trace s.
Proof.
  unfold initSDL. destruct (SDL_Init_result pf <? 0); [intros [= <- <-]; reflexivity |].
  destruct (SDL_CreateWindow_succeeds pf); intros [= <- <-]; [intros [] |].
  reflexivity.
Qed.

Lemma initInstance_failed pf s s' (o : outcome unit) :
  initInstance pf s = (o, s') -> failed o ->
  trace s' = trace s \/ trace s' = trace s ++ [Create Instance NoInfo].
Proof.
  unfold initInstance.
  destruct (createInstance_succeeds pf);
    [| intros [= <- <-]; left; reflexivity].
  destruct (SDL_Vulkan_CreateSurface_succeeds pf); intros [= <- <-];
    [intros [] | right; reflexivity].
Qed.

Lemma initPhysicalDevice_trace pf s s' (o : outcome unit) :
  initPhysicalDevice pf s = (o, s') -> trace s' = trace s.
Proof.
  unfold initPhysicalDevice.
  destruct (length (enumeratePhysicalDevices pf) =? 0)%nat;
    [intros [= <- <-]; reflexivity |].
  destruct (find isDeviceSuitable (enumeratePhysicalDevices pf));
    intros [= <- <-]; reflexivity.
Qed.

Lemma initQueueFamilies_trace s s' (o : outcome unit) :
  initQueueFamilies s = (o, s') -> trace s' = trace s.
Proof.
  unfold initQueueFamilies.
  cbv [mbind M_bind deref gets modify throw lift print_cerr mret M_ret].
  destruct (physical_device_ s) as [phys_dev |];
    [| intros [= <- <-]; reflexivity].
  simpl.
  destruct (bool_decide (is_Some (graphics (findQueueFamilies phys_dev))));
    simpl; [| intros [= <- <-]; reflexivity].
  destruct (bool_decide (is_Some (present (findQueueFamilies phys_dev))));
    simpl; [| intros [= <- <-]; reflexivity].
  destruct (bool_decide (is_Some (transfer (findQueueFamilies phys_dev))));
    destruct (bool_decide (is_Some (compute (findQueueFamilies phys_dev))));
    simpl; intros [= <- <-]; reflexivity.
Qed.

Lemma initDevice_failed s s' (o : outcome unit) :
  initDevice s = (o, s') -> failed o -> trace s' = trace s.
Proof.
  unfold initDevice. cbv [mbind M_bind gets lift deref modify emit throw].
  destruct (queue_family_indices_ s) as [[g |] [t |] [c |] [p |]]; simpl;
    try (intros [= <- <-]; reflexivity).
  destruct (physical_device_ s) as [phys_dev |]; simpl;
    [| intros [= <- <-]; reflexivity].
  destruct (createDevice_succeeds phys_dev); simpl; intros [= <- <-];
    [intros [] | reflexivity].
Qed.

Lemma initSwapchain_failed pf s s' (o : outcome unit) :
  initSwapchain pf s = (o, s') -> failed o -> trace s' = trace s.
Proof.
  unfold initSwapchain. cbv [mbind M_bind gets lift deref modify emit throw].
  destruct (physical_device_ s) as [phys_dev |]; simpl;
    [| intros [= <- <-]; reflexivity].
  destruct (initSwapchain_create_info _ _) as [create_info | e |]; simpl;
    try (intros [= <- <-]; reflexivity).
  destruct (device_ s); simpl; [| intros [= <- <-]; reflexivity].
  destruct (createSwapchainKHR_succeeds pf); simpl; intros [= <- <-];
    [intros [] | reflexivity].
Qed.

Lemma initSwapchainImageViews_loop_trace pf images :
  forall s s' (o : outcome unit),
    initSwapchainImageViews_loop pf images s = (o, s') ->
    exists k, (k <= length images)%nat
              /\ trace s'
                 = trace s
                   ++ view_creations (length (swapchain_image_views_ s)) k.
Proof.
  induction images as [| image images IH]; intros s s' o; simpl.
  - intros [= <- <-]. exists 0%nat. split; [lia |].
    unfold view_creations. simpl. rewrite app_nil_r. reflexivity.
  - cbv [mbind M_bind gets deref modify emit throw lift].
    destruct (device_ s); simpl.
    2: { intros [= <- <-]. exists 0%nat. split; [lia |].
         unfold view_creations. simpl. rewrite app_nil_r. reflexivity. }
    destruct (createImageView_succeeds pf _); simpl.
    2: { intros [= <- <-]. exists 0%nat. split; [lia |].
         unfold view_creations. simpl. rewrite app_nil_r. reflexivity. }
    intros Hrest. apply IH in Hrest as (k & Hk & Htrace). simpl in Htrace.
    exists (S k). split; [lia |]. rewrite Htrace.
    rewrite length_app, Nat.add_1_r. unfold view_creations. simpl.
    rewrite <- app_assoc. reflexivity.
Qed.

Lemma initGraphicsPipeline_failed pf s s' (o : outcome unit) :
  initGraphicsPipeline pf s = (o, s') -> failed o ->
  trace s' = trace s
  \/ trace s' = trace s ++ [Create (ShaderModule "vert.spv") NoInfo].
Proof.
  unfold initGraphicsPipeline, readFile, createShaderModule.
  cbv [mbind M_bind gets deref modify emit throw lift mret M_ret].
  destruct (file_opens pf "vert.spv"); simpl;
    [| intros [= <- <-]; left; reflexivity].
  destruct (file_data_allocates pf "vert.spv"); simpl;
    [| intros [= <- <-]; left; reflexivity].
  destruct (file_opens pf "frag.spv"); simpl;
    [| intros [= <- <-]; left; reflexivity].
  destruct (file_data_allocates pf "frag.spv"); simpl;
    [| intros [= <- <-]; left; reflexivity].
  destruct (device_ s) eqn:Hdev; simpl;
    [| intros [= <- <-]; left; reflexivity].
  destruct (createShaderModule_succeeds pf "vert.spv"); simpl;
    [| intros [= <- <-]; left; reflexivity].
  rewrite Hdev.
  destruct (createShaderModule_succeeds pf "frag.spv"); simpl;
    intros [= <- <-]; [intros [] | right; reflexivity].
Qed.

Lemma created_views_split (from k count : nat) :
  (k <= count)%nat ->
  created_views from count
  = created_views from k ++ created_views (from + k) (count - k).
Proof.
  intros Hk. unfold created_views.
  replace count with (k + (count - k))%nat at 1 by lia.
  rewrite seq_app, map_app. reflexivity.
Qed.

Lemma ctor_creation_order_NoDup (pf : Platform) :
  NoDup (ctor_creation_order pf).
Proof.
  unfold ctor_creation_order.
  assert (Hview : forall o, o ∈ created_views 0 (length (getSwapchainImagesKHR pf))
                            ++ [ShaderModule "vert.spv"; ShaderModule "frag.spv"] ->
                            (exists k, o = ImageView k)
                            \/ exists file, o = ShaderModule file).
  { intros o Ho. apply elem_of_app in Ho as [Ho | Ho].
    - left. eapply elem_of_created_views. exact Ho.
    - right. repeat (apply elem_of_cons in Ho as [-> | Ho]; [eexists; reflexivity |]).
      inversion Ho. }
  assert (Htail : NoDup (created_views 0 (length (getSwapchainImagesKHR pf))
                         ++ [ShaderModule "vert.spv"; ShaderModule "frag.spv"])).
  { apply NoDup_app. split; [apply NoDup_created_views |]. split.
    - intros o Ho Hin. apply elem_of_created_views in Ho as [k ->].
      repeat (apply elem_of_cons in Hin as [Hin | Hin]; [discriminate |]).
      inversion Hin.
    - apply NoDup_cons. split.
      + intros Hin. apply elem_of_cons in Hin as [Hin | Hin];
          [discriminate | inversion Hin].
      + apply NoDup_singleton. }
  simpl.
  repeat (apply NoDup_cons; split;
    [intros Hin;
     repeat (apply elem_of_cons in Hin as [Hin | Hin]; [discriminate |]);
     apply Hview in Hin as [[k Hk] | [file Hfile]]; discriminate |]).
  exact Htail.
Qed.

Lemma creation_order_after_failure (pf : Platform) (o : outcome unit)
    (s : State) (tr : list event) :
  trace s = tr ->
  created tr `prefix_of` ctor_creation_order pf ->
  destroyed tr = [] ->
  failed o ->
  creation_order_respected pf o s.
Proof.
  intros <- Hprefix Hdestroyed Hfailed. unfold creation_order_respected.
  split; [assumption |]. split.
  - destruct Hprefix as [rest Hrest].
    pose proof (ctor_creation_order_NoDup pf) as Hnodup.
    rewrite Hrest in Hnodup. apply NoDup_app in Hnodup as [Hnodup _].
    assumption.
  - split.
    + rewrite Hdestroyed. intros x Hx. inversion Hx.
    + intros ->. destruct Hfailed.
Qed.

Lemma created_cons_Create o info tr :
  created (Create o info :: tr) = o :: created tr.
Proof. reflexivity. Qed.

Lemma created_cons_Destroy o tr : created (Destroy o :: tr) = created tr.
Proof. reflexivity. Qed.

Lemma destroyed_cons_Create o info tr :
  destroyed (Create o info :: tr) = destroyed tr.
Proof. reflexivity. Qed.

Lemma destroyed_cons_Destroy o tr :
  destroyed (Destroy o :: tr) = o :: destroyed tr.
Proof. reflexivity. Qed.

Lemma created_nil : created [] = [].
Proof. reflexivity. Qed.

Lemma destroyed_nil : destroyed [] = [].
Proof. reflexivity. Qed.

Create Rewrite HintDb trace_db.
#[local] Hint Rewrite created_cons_Create created_cons_Destroy
  destroyed_cons_Create destroyed_cons_Destroy created_nil destroyed_nil
  created_app destroyed_app created_view_creations destroyed_view_creations
  : trace_db.

(** Closes [l1 `prefix_of` ctor_creation_order pf] for the object lists that
    a start-up can reach. *)
Ltac solve_creation_prefix :=
  unfold ctor_creation_order; simpl;
  repeat apply prefix_cons;
  first
    [ apply prefix_nil
    | apply prefix_app_r; reflexivity
    | apply prefix_app; repeat apply prefix_cons; apply prefix_nil ].

Ltac close_failed_start Htrace :=
  simpl in Htrace;
  eapply creation_order_after_failure;
    [ exact Htrace
    | autorewrite with trace_db; solve_creation_prefix
    | autorewrite with trace_db; reflexivity
    | assumption || exact I ].

(** X12. Whatever the platform answers and however the constructor ends, the
    objects created so far are an initial part of the fixed creation order
    (window, instance, surface, logical device, swapchain, one view per
    swapchain image in image order, vertex shader module, fragment shader
    module): no step is skipped, none is repeated, and nothing is created
    after the first failing step. The constructor destroys nothing but shader
    modules, and when it returns normally the whole order was created. *)
Theorem Application_ctor_creation_order (pf : Platform) :
  creation_order_respected pf
    (fst (Application_ctor pf initial_state))
    (snd (Application_ctor pf initial_state)).
Proof.
  destruct (Application_ctor pf initial_state) as [o s] eqn:Hctor.
  simpl fst. simpl snd. unfold Application_ctor in Hctor.
  (* initSDL *)
  apply M_bind_cases in Hctor
    as [(u & s1 & Hstep & Hctor) | (o' & Hstep & Hf & Hfo)].
  2: { apply initSDL_failed in Hstep; [| assumption].
       close_failed_start Hstep. }
  apply initSDL_Ret in Hstep. subst s1. clear u.
  (* initInstance *)
  apply M_bind_cases in Hctor
    as [(u & s2 & Hstep & Hctor) | (o' & Hstep & Hf & Hfo)].
  2: { apply initInstance_failed in Hstep as [Htrace | Htrace];
         [| | assumption]; close_failed_start Htrace. }
  apply initInstance_Ret in Hstep. subst s2. clear u.
  (* initPhysicalDevice *)
  apply M_bind_cases in Hctor
    as [(u & s3 & Hstep & Hctor) | (o' & Hstep & Hf & Hfo)].
  2: { apply initPhysicalDevice_trace in Hstep. close_failed_start Hstep. }
  apply initPhysicalDevice_Ret in Hstep as (phys_dev & -> & _ & _). clear u.
  (* initQueueFamilies *)
  apply M_bind_cases in Hctor
    as [(u & s4 & Hstep & Hctor) | (o' & Hstep & Hf & Hfo)].
  2: { apply initQueueFamilies_trace in Hstep. close_failed_start Hstep. }
  apply initQueueFamilies_Ret in Hstep as (phys_dev' & lines & _ & _ & _ & ->).
  clear u.
  (* initDevice *)
  apply M_bind_cases in Hctor
    as [(u & s5 & Hstep & Hctor) | (o' & Hstep & Hf & Hfo)].
  2: { apply initDevice_failed in Hstep; [| assumption].
       close_failed_start Hstep. }
  apply initDevice_Ret in Hstep as (g & t & c & p & phys_dev'' & _ & _ & ->).
  clear u.
  (* initSwapchain *)
  apply M_bind_cases in Hctor
    as [(u & s6 & Hstep & Hctor) | (o' & Hstep & Hf & Hfo)].
  2: { apply initSwapchain_failed in Hstep; [| assumption].
       close_failed_start Hstep. }
  apply initSwapchain_Ret in Hstep as (phys_dev3 & create_info & _ & _ & ->).
  clear u.
  (* initSwapchainImageViews *)
  apply M_bind_cases in Hctor
    as [(u & s7 & Hstep & Hctor) | (o' & Hstep & Hf & Hfo)].
  2: { unfold initSwapchainImageViews in Hstep.
       cbv [mbind M_bind gets] in Hstep. simpl in Hstep.
       apply initSwapchainImageViews_loop_trace in Hstep as (k & Hk & Htrace).
       simpl in Htrace.
       eapply creation_order_after_failure;
         [exact Htrace | | autorewrite with trace_db; reflexivity | assumption].
       autorewrite with trace_db. unfold ctor_creation_order.
       rewrite (created_views_split 0 k _ Hk), <- app_assoc.
       simpl. repeat apply prefix_cons. apply prefix_app_r. reflexivity. }
  apply initSwapchainImageViews_Ret in Hstep. simpl in Hstep. subst s7. clear u.
  (* initGraphicsPipeline *)
  destruct o as [[] | e |].
  - apply initGraphicsPipeline_Ret in Hctor.
    assert (Htrace :
              trace s
              = [Create Window NoInfo; Create Instance NoInfo;
                 Create Surface NoInfo;
                 Create Device (DeviceQueues (std_set [g; t; c; p]));
                 Create Swapchain (SwapchainInfo create_info)]
                ++ view_creations 0 (length (getSwapchainImagesKHR pf))
                ++ pipeline_events)
      by (subst s; simpl; rewrite <- ?app_assoc; reflexivity).
    unfold creation_order_respected. rewrite Htrace. unfold pipeline_events.
    autorewrite with trace_db.
    fold (ctor_creation_order pf).
    split; [reflexivity |]. split; [apply ctor_creation_order_NoDup |].
    split; [| reflexivity].
    simpl. intros x Hx.
    repeat (apply elem_of_cons in Hx as [-> | Hx]; [eexists; reflexivity |]).
    inversion Hx.
  - apply initGraphicsPipeline_failed in Hctor as [Htrace | Htrace];
      [| | exact I]; close_failed_start Htrace.
  - apply initGraphicsPipeline_failed in Hctor as [Htrace | Htrace];
      [| | exact I]; close_failed_start Htrace.
Qed.

(** ** Device selection and the rest of the start-up *)

Lemma initPhysicalDevice_Ret_first pf s s' u :
  initPhysicalDevice pf s = (Ret u, s') ->
  exists phys_dev,
    find isDeviceSuitable (enumeratePhysicalDevices pf) = Some phys_dev
    /\ s' = set_physical_device_ (Some phys_dev) s.
Proof.
  unfold initPhysicalDevice.
  destruct (length (enumeratePhysicalDevices pf) =? 0)%nat; [discriminate |].
  destruct (find isDeviceSuitable (enumeratePhysicalDevices pf))
    as [phys_dev |]; [| discriminate].
  intros [= _ <-]. exists phys_dev. split; reflexivity.
Qed.

Lemma Application_ctor_selected_device pf s u :
  Application_ctor pf initial_state = (Ret u, s) ->
  exists phys_dev,
    find isDeviceSuitable (enumeratePhysicalDevices pf) = Some phys_dev
    /\ physical_device_ s = Some phys_dev
    /\ forall r, some_family_offers phys_dev r.
Proof.
  unfold Application_ctor. intros H.
  bind_inv H. apply initSDL_Ret in H_head. subst.
  bind_inv H. apply initInstance_Ret in H_head. subst.
  bind_inv H. apply initPhysicalDevice_Ret_first in H_head
    as (phys_dev & Hfind & ->).
  bind_inv H. apply initQueueFamilies_Ret in H_head
    as (phys_dev' & lines & Hdev & _ & _ & ->).
  simpl in Hdev. injection Hdev as <-.
  bind_inv H. apply initDevice_Ret in H_head
    as (g & t & c & p & phys_dev' & Hq & _ & ->).
  simpl in Hq.
  bind_inv H. apply initSwapchain_Ret in H_head
    as (phys_dev'' & create_info & _ & _ & ->).
  bind_inv H. apply initSwapchainImageViews_Ret in H_head. subst.
  apply initGraphicsPipeline_Ret in H. subst.
  exists phys_dev. split; [assumption |]. split; [reflexivity |].
  intros r. apply resolved_is_Some_iff. rewrite Hq.
  destruct r; simpl; eexists; reflexivity.
Qed.

(** X13. The device is chosen by [isDeviceSuitable] alone, before the queue
    families are looked at, and the choice is never revised: when the
    constructor returns, the selected device is the first suitable device of
    the enumeration and it offers all four queue roles; when the first
    suitable device lacks one of the four roles the constructor fails, even
    if a later device of the enumeration offers them all. *)
Theorem Application_ctor_no_device_fallback (pf : Platform) :
  (forall s,
     Application_ctor pf initial_state = (Ret tt, s) ->
     exists before phys_dev after,
       enumeratePhysicalDevices pf = before ++ phys_dev :: after
       /\ Forall (fun d => isDeviceSuitable d = false) before
       /\ isDeviceSuitable phys_dev = true
       /\ physical_device_ s = Some phys_dev
       /\ forall r, some_family_offers phys_dev r)
  /\ (forall before phys_dev after r,
        enumeratePhysicalDevices pf = before ++ phys_dev :: after ->
        Forall (fun d => isDeviceSuitable d = false) before ->
        isDeviceSuitable phys_dev = true ->
        ~ some_family_offers phys_dev r ->
        failed (fst (Application_ctor pf initial_state))).
Proof.
  split.
  - intros s Hctor.
    apply Application_ctor_selected_device in Hctor
      as (phys_dev & Hfind & Hsel & Hroles).
    destruct (find_is_Some_first _ _ _ Hfind)
      as (before & after & Heq & Hsuit & Hbefore).
    exists before, phys_dev, after. repeat (split; [assumption |]). assumption.
  - intros before phys_dev after r Heq Hbefore Hsuit Hmissing.
    destruct (Application_ctor pf initial_state) as [[[] | e |] s] eqn:Hctor;
      simpl; try exact I.
    apply Application_ctor_selected_device in Hctor
      as (phys_dev' & Hfind & _ & Hroles).
    rewrite Heq, (find_decompose _ _ _ _ Hbefore Hsuit) in Hfind.
    injection Hfind as <-. apply Hmissing, Hroles.
Qed.

Lemma Application_ctor_no_device_fallback_witness :
  (exists phys_dev,
     physical_device_ (snd (Application_ctor platform_two_gpus initial_state))
     = Some phys_dev
     /\ forall r, some_family_offers phys_dev r)
  /\ failed (fst (Application_ctor platform_first_gpu_degraded initial_state)).
Proof.
  split.
  - destruct (proj1 (Application_ctor_no_device_fallback platform_two_gpus)
                (snd (Application_ctor platform_two_gpus initial_state)))
      as (before & phys_dev & after & _ & _ & _ & Hsel & Hroles).
    + vm_compute. reflexivity.
    + exists phys_dev. split; assumption.
  - apply (proj2 (Application_ctor_no_device_fallback
                    platform_first_gpu_degraded)
             [] gpu_no_transfer_bit [gpu_with_swapchain_extension]
             RoleTransfer).
    + reflexivity.
    + constructor.
    + vm_compute. reflexivity.
    + intros (i & prop & Hi & Hlookup & Hoffers).
      destruct (Z.to_nat i) as [| n] eqn:Hn; simpl in Hlookup.
      * injection Hlookup as <-. discriminate Hoffers.
      * discriminate Hlookup.
Defined.

(** ** Teardown in the earlier revision *)

Lemma legacy_initInstance_Ret pf s s' u :
  Legacy.initInstance pf s = (Ret u, s') ->
  s' = set_surface_ (Some Surface)
         (set_trace (trace s ++ [Create Instance NoInfo; Create Surface NoInfo])
            (set_instance_ (Some Instance) s)).
Proof.
  unfold Legacy.initInstance.
  destruct (createInstance_succeeds pf); [| discriminate].
  destruct (SDL_Vulkan_CreateSurface_succeeds pf); [| discriminate].
  intros [= _ <-]. cbv [mbind M_bind emit modify]. simpl.
  rewrite <- app_assoc. reflexivity.
Qed.

Lemma legacy_initDevice_Ret s s' u :
  Legacy.initDevice s = (Ret u, s') ->
  exists g t c p,
    s' = set_queues_
           {| queue_graphics := Some (g, 0); queue_transfer := Some (t, 0);
              queue_compute := Some (c, 0); queue_present := Some (p, 0) |}
           (set_device_ (Some Device)
              (set_trace
                 (trace s ++ [Create Device (DeviceQueues (std_set [g; t; c; p]))])
                 s)).
Proof.
  unfold Legacy.initDevice. cbv [mbind M_bind gets lift deref modify emit throw].
  destruct (queue_family_indices_ s) as [[g |] [t |] [c |] [p |]];
    simpl; try discriminate.
  destruct (physical_device_ s) as [phys_dev |]; simpl; [| discriminate].
  destruct (createDevice_succeeds phys_dev); simpl; [| discriminate].
  intros [= _ <-]. exists g, t, c, p. reflexivity.
Qed.

Lemma legacy_initSwapchain_Ret pf s s' u :
  Legacy.initSwapchain pf s = (Ret u, s') ->
  exists create_info,
    s' = set_swapchain_images_ (getSwapchainImagesKHR pf)
           (set_swapchain_ (Some Swapchain)
              (set_trace
                 (trace s ++ [Create Swapchain (SwapchainInfo create_info)])
                 s)).
Proof.
  unfold Legacy.initSwapchain.
  cbv [mbind M_bind gets lift deref modify emit throw].
  destruct (physical_device_ s) as [phys_dev |]; simpl; [| discriminate].
  destruct (initSwapchain_create_info _ _) as [create_info | |]; simpl;
    try discriminate.
  destruct (device_ s); simpl; [| discriminate].
  destruct (createSwapchainKHR_succeeds pf); simpl; [| discriminate].
  intros [= _ <-]. exists create_info. reflexivity.
Qed.

Lemma legacy_init_Ret pf s u :
  Legacy.init pf initial_state = (Ret u, s) ->
  exists device_created swapchain_created,
    instance_ s = Some Instance /\ surface_ s = Some Surface
    /\ device_ s = Some Device /\ swapchain_ s = Some Swapchain
    /\ trace s
       = [Create Window NoInfo; Create Instance NoInfo; Create Surface NoInfo;
          Create Device device_created; Create Swapchain swapchain_created].
Proof.
  unfold Legacy.init. intros H.
  bind_inv H. apply initSDL_Ret in H_head. subst.
  bind_inv H. apply legacy_initInstance_Ret in H_head. subst.
  bind_inv H. rewrite legacy_initPhysicalDevice_agrees in H_head
    by reflexivity.
  apply initPhysicalDevice_Ret in H_head as (phys_dev & -> & _ & _).
  bind_inv H. apply initQueueFamilies_Ret in H_head
    as (phys_dev' & lines & _ & _ & _ & ->).
  bind_inv H. apply legacy_initDevice_Ret in H_head as (g & t & c & p & ->).
  apply legacy_initSwapchain_Ret in H as (create_info & ->).
  eexists _, _. repeat (split; [reflexivity |]). reflexivity.
Qed.

(** X14. In the earlier revision, when [init] returns, [run] goes on to
    [cleanup], which destroys the swapchain, the surface, the logical device
    and the instance, in this order and once each; the window is never
    destroyed, so it is the one object left alive when [run] returns. When
    [init] ends with an exception, [run] ends with the same exception in the
    same state: [cleanup] is skipped and nothing is destroyed. *)
Theorem legacy_run_teardown (pf : Platform) :
  match Legacy.init pf initial_state with
  | (Ret _, s) =>
      exists s',
        Legacy.run pf initial_state = (Ret tt, s')
        /\ trace s'
           = trace s ++ map Destroy [Swapchain; Surface; Device; Instance]
        /\ live (trace s') = [Window]
  | (Throw e, s) => Legacy.run pf initial_state = (Throw e, s)
  | (Undefined, s) => Legacy.run pf initial_state = (Undefined, s)
  end.
Proof.
  pose proof (legacy_run_skips_cleanup_on_failure pf) as Hrun.
  destruct (Legacy.init pf initial_state) as [[[] | e |] s] eqn:Hinit;
    try exact Hrun.
  apply legacy_init_Ret in Hinit
    as (dev_info & sw_info & Hi & Hsu & Hd & Hsw & Htrace).
  rewrite Hrun. unfold Legacy.cleanup.
  cbv [mbind M_bind gets destroy emit modify]. simpl.
  rewrite Hsw. simpl. rewrite Hsu. simpl. rewrite Hd. simpl. rewrite Hi. simpl.
  eexists. split; [reflexivity |]. simpl trace.
  rewrite <- !app_assoc. split; [reflexivity |].
  rewrite Htrace. reflexivity.
Qed.

(** ** Capability bits *)

Lemma has_flag_pow2 (flags n : Z) :
  0 <= n -> has_flag flags (2 ^ n) = Z.testbit flags n.
Proof.
  intros Hn. unfold has_flag.
  destruct (Z.testbit flags n) eqn:Hbit.
  - assert (Hland : Z.land flags (2 ^ n) = 2 ^ n).
    { apply Z.bits_inj'. intros m Hm.
      rewrite Z.land_spec, Z.pow2_bits_eqb by assumption.
      destruct (Z.eqb_spec n m) as [<- | Hne];
        [rewrite Hbit; reflexivity | apply andb_false_r]. }
    rewrite Hland.
    destruct (Z.eqb_spec (2 ^ n) 0) as [Hzero | _]; [| reflexivity].
    pose proof (Z.pow_pos_nonneg 2 n ltac:(lia) Hn). lia.
  - assert (Hland : Z.land flags (2 ^ n) = 0).
    { apply Z.bits_inj'. intros m Hm.
      rewrite Z.land_spec, Z.pow2_bits_eqb, Z.bits_0 by assumption.
      destruct (Z.eqb_spec n m) as [<- | Hne];
        [rewrite Hbit; reflexivity | apply andb_false_r]. }
    rewrite Hland. reflexivity.
Qed.

(** X15. A family offers graphics, compute or transfer exactly when bit 0,
    bit 1 or bit 2 of its [queueFlags] is set, whatever the other bits of the
    flags are; whether it offers present does not depend on the flags at
    all. *)
Theorem family_offers_capability_bit (phys_dev : PhysicalDevice) (i : Z)
    (prop : QueueFamilyProperties) :
  family_offers phys_dev RoleGraphics i prop = Z.testbit (queueFlags prop) 0
  /\ family_offers phys_dev RoleCompute i prop = Z.testbit (queueFlags prop) 1
  /\ family_offers phys_dev RoleTransfer i prop = Z.testbit (queueFlags prop) 2
  /\ forall prop',
       family_offers phys_dev RolePresent i prop
       = family_offers phys_dev RolePresent i prop'.
Proof.
  split; [apply (has_flag_pow2 _ 0); lia |].
  split; [apply (has_flag_pow2 _ 1); lia |].
  split; [apply (has_flag_pow2 _ 2); lia |].
  reflexivity.
Qed.

(** ** The state after [initSwapchain] *)

(** X16. [initSwapchain] changes the state only when the swapchain is
    created: if it ends in any other way (no descriptor could be built, or
    the creation call failed) the state is unchanged and nothing is created.
    When it returns, the stored format is the format of the selected surface
    format, the stored extent is the selected extent, the stored images are
    the images the driver reports, and exactly one swapchain was created,
    with the descriptor built from the selected device's snapshot. *)
Theorem initSwapchain_outcome (pf : Platform) (s s' : State)
    (o : outcome unit) :
  initSwapchain pf s = (o, s') ->
  (failed o -> s' = s)
  /\ (o = Ret tt ->
      exists phys_dev surface_format extent create_info,
        physical_device_ s = Some phys_dev
        /\ chooseSwapSurfaceFormat (getSurfaceFormatsKHR phys_dev)
           = Ret surface_format
        /\ chooseSwapExtent (getSurfaceCapabilitiesKHR phys_dev) = Ret extent
        /\ initSwapchain_create_info (querySwapchainSupportDetails phys_dev)
             (queue_family_indices_ s) = Ret create_info
        /\ swapchain_format_ s' = format surface_format
        /\ swapchain_extent_ s' = extent
        /\ swapchain_images_ s' = getSwapchainImagesKHR pf
        /\ swapchain_ s' = Some Swapchain
        /\ trace s'
           = trace s ++ [Create Swapchain (SwapchainInfo create_info)]).
Proof.
  intros Hrun. split.
  - revert Hrun. unfold initSwapchain.
    cbv [mbind M_bind gets lift deref modify emit throw].
    destruct (physical_device_ s) as [phys_dev |];
      [| intros [= <- <-]; reflexivity].
    simpl.
    destruct (initSwapchain_create_info _ _) as [create_info | e |]; simpl;
      try (intros [= <- <-]; reflexivity).
    destruct (device_ s); simpl; [| intros [= <- <-]; reflexivity].
    destruct (createSwapchainKHR_succeeds pf); simpl; intros [= <- <-];
      [intros [] | reflexivity].
  - intros ->. apply initSwapchain_Ret in Hrun
      as (phys_dev & create_info & Hdev & Hci & ->).
    pose proof Hci as Hparts. unfold initSwapchain_create_info in Hparts.
    simpl in Hparts.
    destruct (chooseSwapSurfaceFormat (getSurfaceFormatsKHR phys_dev))
      as [surface_format | |] eqn:Hformat; simpl in Hparts;
      try discriminate Hparts.
    destruct (chooseSwapExtent (getSurfaceCapabilitiesKHR phys_dev))
      as [extent | |] eqn:Hextent; simpl in Hparts; try discriminate Hparts.
    destruct (initSwapchain_image_count (getSurfaceCapabilitiesKHR phys_dev));
      simpl in Hparts; try discriminate Hparts.
    destruct (initSwapchain_sharing (queue_family_indices_ s));
      simpl in Hparts; try discriminate Hparts.
    injection Hparts as <-.
    exists phys_dev, surface_format, extent. eexists.
    split; [assumption |]. split; [exact Hformat |]. split; [exact Hextent |].
    split; [exact Hci |]. repeat split.
Qed.

Lemma initSwapchain_outcome_witness :
  swapchain_format_
    (snd (initSwapchain platform_two_gpus
            (snd (startup_before_swapchain platform_two_gpus initial_state))))
  = eB8G8R8A8Srgb.
Proof.
  destruct (proj2 (initSwapchain_outcome platform_two_gpus
                     (snd (startup_before_swapchain platform_two_gpus
                             initial_state))
                     (snd (initSwapchain platform_two_gpus
                             (snd (startup_before_swapchain platform_two_gpus
                                     initial_state))))
                     (Ret tt) ltac:(vm_compute; reflexivity)) eq_refl)
    as (phys_dev & surface_format & extent & create_info & Hdev & Hformat
        & _ & _ & Hstored & _).
  rewrite Hstored.
  assert (Hsel : phys_dev = gpu_with_swapchain_extension)
    by (vm_compute in Hdev; injection Hdev as <-; reflexivity).
  rewrite Hsel in Hformat. vm_compute in Hformat.
  injection Hformat as <-. reflexivity.
Defined.
